(** * Route-resolution engine of the OSMnx routing service

    A shallow embedding of [routing-service/main.py] and the properties its
    specification states about it.

    Conventions of the embedding.
    - A Python [float] is a real number ([R]): arithmetic is exact, the
      rounding error of binary64 is outside the model.  The one place where
      the sign bit of a float zero is observable, the text of the cache key,
      is modelled ([Py.repr_round2]).  In exact arithmetic the square roots
      of [haversine_distance] never raise; in binary64 they can
      ([Binary64]).  A property of a handler is therefore stated of a
      distance that was computed, or of a call that returned, and does not
      rest on the distance being computed for every pair of points.
    - A Python [int] is a [Z], a [str] a [string].
    - An exception is a value of [exn]; code that may raise returns a
      [result].
    - The module-level caches [graph_cache] and [disk_cache] are fields of an
      explicit [ServiceState] that is threaded through the handlers.
    - OSMnx and NetworkX are not part of the repository: their entry points
      are the fields of the record [OSMnx], over which the embedding is
      parameterised.
    - Module [Binary64] evaluates [haversine_distance] once more, in binary64
      arithmetic and with the C library's [sin], [cos], [pow] and [atan2] as
      parameters, for the one property that rounding decides. *)

From Stdlib Require Import Reals Lra Lia ZArith String Ascii List.
From Stdlib Require Import Machin.
From Stdlib Require Import DecimalString.
From Stdlib Require Floats DecimalZ DecimalPos.
From stdpp Require Import base option gmap strings.

Open Scope string_scope.
Open Scope list_scope.
Open Scope R_scope.

(** ** Exceptions and fallible results *)

(** The exception classes the handlers tell apart.  Every one of them is a
    subclass of Python's [Exception]. *)
Inductive exn_class : Type :=
  | NetworkXNoPath      (* nx.NetworkXNoPath *)
  | KeyError
  | ValueError
  | ValidationError     (* pydantic / FastAPI request validation, HTTP 422 *)
  | HTTPException       (* fastapi.HTTPException *)
  | OtherException.

(** An exception: its class and [str(e)]. *)
Record exn : Type := Exn { exn_kind : exn_class; exn_str : string }.

Inductive result (A : Type) : Type :=
  | Ok (a : A)
  | Raise (e : exn).
Arguments Ok {A} a.
Arguments Raise {A} e.

Definition bind {A B : Type} (r : result A) (k : A -> result B) : result B :=
  match r with
  | Ok a => k a
  | Raise e => Raise e
  end.

Notation "'let*' x ':=' r 'in' k" := (bind r (fun x => k))
  (at level 10, x name, r at level 100, k at level 200).

Definition is_class (c : exn_class) (e : exn) : bool :=
  match c, exn_kind e with
  | NetworkXNoPath, NetworkXNoPath | KeyError, KeyError
  | ValueError, ValueError | ValidationError, ValidationError
  | HTTPException, HTTPException | OtherException, OtherException => true
  | _, _ => false
  end.

(** A comprehension [[f(x) for x in l]] whose body may raise: elements are
    evaluated left to right and the first exception ends the evaluation. *)
Fixpoint comprehension {A B : Type} (f : A -> result B) (l : list A)
  : result (list B) :=
  match l with
  | nil => Ok nil
  | x :: l' =>
      let* y := f x in
      let* ys := comprehension f l' in
      Ok (y :: ys)
  end.

(** ** Python numeric builtins *)

Module Py.

(** [int(x)] on a float: truncation toward zero. *)
Definition int (x : R) : Z :=
  if Rle_dec 0 x then Zfloor x else Zceil x.

(** Round to the nearest integer, ties to the even one. *)
Definition round_half_even (y : R) : Z :=
  let f := Zfloor y in
  let d := y - IZR f in
  if Rlt_dec d (1 / 2) then f
  else if Rlt_dec (1 / 2) d then (f + 1)%Z
  else if Z.even f then f else (f + 1)%Z.

(** [round(x, ndigits)] on a float, as a number. *)
Definition round (x : R) (ndigits : nat) : R :=
  IZR (round_half_even (x * 10 ^ ndigits)) / 10 ^ ndigits.

(** [math.radians]. *)
Definition radians (x : R) : R := x * (PI / 180).

(** [math.atan2(y, x)]. *)
Definition atan2 (y x : R) : R :=
  if Rlt_dec 0 x then atan (y / x)
  else if Rlt_dec x 0 then
         (if Rle_dec 0 y then atan (y / x) + PI else atan (y / x) - PI)
  else if Rlt_dec 0 y then PI / 2
  else if Rlt_dec y 0 then - (PI / 2)
  else 0.

(** [math.sqrt]: a [ValueError] on a negative argument. *)
Definition sqrt (x : R) : result R :=
  if Rle_dec 0 x then Ok (R_sqrt.sqrt x)
  else Raise (Exn ValueError "math domain error").

(** [str(n)] for an [int]. *)
Definition str_int (n : Z) : string := NilZero.string_of_int (Z.to_int n).

(** The two decimals of a float that [round(_, 2)] returned, the way [repr]
    prints them: at least one digit after the point, no trailing zero. *)
Definition repr_frac (f : Z) : string :=
  if (f mod 10 =? 0)%Z then str_int (f / 10)
  else str_int (f / 10) +:+ str_int (f mod 10).

(** [repr(round(x, 2))], the text an f-string inserts for the rounded float.
    [q] is the rounded value in hundredths.  [round] keeps the sign of its
    argument, so a negative [x] that rounds to zero gives the float [-0.0],
    printed with its sign.  (Magnitudes below 1e16, where [repr] uses no
    exponent; latitudes and longitudes are.  An argument that is itself the
    float [-0.0] has no counterpart in [R].) *)
Definition repr_round2 (x : R) : string :=
  let q := Z.abs (round_half_even (x * 10 ^ 2)) in
  (if Rlt_dec x 0 then "-" else "")
  +:+ str_int (q / 100) +:+ "." +:+ repr_frac (q mod 100).

End Py.


(** ** Pydantic models *)

Record Coordinates : Type := {
  lat : R;      (* Field(..., ge=-90, le=90) *)
  lng : R       (* Field(..., ge=-180, le=180) *)
}.

Record RouteRequest : Type := {
  origin : Coordinates;
  destination : Coordinates;
  mode : string             (* Literal["drive", "walk", "bike"] = "drive" *)
}.

(** [RouteResponse]; its field [mode] is [mode_r] here, the name [mode]
    being taken by [RouteRequest]. *)
Record RouteResponse : Type := {
  distance_km : R;
  duration_minutes : R;
  mode_r : string;
  path_coordinates : option (list (list R));   (* default None *)
  success : bool;                              (* default True *)
  error : option string                        (* default None *)
}.

Record BatchRouteRequest : Type := { routes : list RouteRequest }.

(** [BatchRouteResponse]; its field [routes] is [routes_r] here. *)
Record BatchRouteResponse : Type := {
  routes_r : list RouteResponse;
  total_distance_km : R;
  total_duration_minutes : R
}.

(** *** Request validation

    What FastAPI does with the body of [POST /route] before the handler runs:
    the constraints of the model declarations are checked and a violation is
    answered with a validation error. *)

Definition Coordinates_in_range (c : Coordinates) : Prop :=
  -90 <= lat c <= 90 /\ -180 <= lng c <= 180.

Definition check_Coordinates (c : Coordinates) : bool :=
  (if Rle_dec (-90) (lat c) then true else false)
  && (if Rle_dec (lat c) 90 then true else false)
  && (if Rle_dec (-180) (lng c) then true else false)
  && (if Rle_dec (lng c) 180 then true else false).

(** The values of [Literal["drive", "walk", "bike"]]. *)
Definition mode_literals : list string := ["drive"; "walk"; "bike"].

(** The body of a request as it arrives: [mode] may be absent. *)
Record RouteRequestBody : Type := {
  body_origin : Coordinates;
  body_destination : Coordinates;
  body_mode : option string
}.

Definition validate_RouteRequest (b : RouteRequestBody) : result RouteRequest :=
  if check_Coordinates (body_origin b) && check_Coordinates (body_destination b)
  then
    match body_mode b with
    | None =>
        Ok {| origin := body_origin b; destination := body_destination b;
              mode := "drive" |}
    | Some m =>
        if bool_decide (m ∈ mode_literals)
        then Ok {| origin := body_origin b; destination := body_destination b;
                   mode := m |}
        else Raise (Exn ValidationError
                      "Input should be 'drive', 'walk' or 'bike'")
    end
  else Raise (Exn ValidationError "Input out of range").

(** ** Helper functions *)

(** Map mode to OSMnx network type. *)
Definition get_network_type (mode : string) : string :=
  let mapping : gmap string string :=
    {[ "drive" := "drive"; "walk" := "walk"; "bike" := "bike" ]} in
  default "drive" (mapping !! mode).

(** Get average speed for travel time estimation. *)
Definition get_speed_kmh (mode : string) : R :=
  let speeds : gmap string R :=
    {[ "drive" := 40; "walk" := 5; "bike" := 15 ]} in
  default 40 (speeds !! mode).

(** Generate cache key for graph:
    [f"{lat_rounded}_{lng_rounded}_{mode}_{dist}"]. *)
Definition get_graph_key (lat lng : R) (mode : string) (dist : Z) : string :=
  Py.repr_round2 lat +:+ "_" +:+ Py.repr_round2 lng +:+ "_" +:+ mode
  +:+ "_" +:+ Py.str_int dist.

(** Great-circle distance.  *)
Definition haversine_distance (origin destination : Coordinates) : result R :=
  let R_earth := 6371 in
  let lat1 := Py.radians (lat origin) in
  let lng1 := Py.radians (lng origin) in
  let lat2 := Py.radians (lat destination) in
  let lng2 := Py.radians (lng destination) in
  let dlat := lat2 - lat1 in
  let dlng := lng2 - lng1 in
  let a := sin (dlat / 2) ^ 2 + cos lat1 * cos lat2 * sin (dlng / 2) ^ 2 in
  let* sa := Py.sqrt a in
  let* sb := Py.sqrt (1 - a) in
  let c := 2 * Py.atan2 sa sb in
  Ok (R_earth * c).

(** ** The fast tier: [TTLCache(maxsize=50, ttl=3600)]

    The cache of the library cachetools: the entries in order of last use,
    least recently used first.  Reading an entry and storing one both move it
    to the end; storing a new key into a full cache first discards from the
    front.  The passing of time is the transition [ttl_expire], which may
    happen between any two calls. *)

Section TTLCache.
Context {V : Type}.

Definition maxsize : nat := 50.

(** [key in cache] *)
Definition ttl_contains (key : string) (c : list (string * V)) : bool :=
  existsb (fun kv => String.eqb key (fst kv)) c.

Definition ttl_lookup (key : string) (c : list (string * V)) : option V :=
  snd <$> List.find (fun kv => String.eqb key (fst kv)) c.

Definition ttl_remove (key : string) (c : list (string * V))
  : list (string * V) :=
  List.filter (fun kv => negb (String.eqb key (fst kv))) c.

(** [cache[key]]: the value, and the cache with the entry moved to the
    most-recently-used end. *)
Definition ttl_getitem (key : string) (c : list (string * V))
  : result (V * list (string * V)) :=
  match ttl_lookup key c with
  | Some v => Ok (v, ttl_remove key c ++ [(key, v)])
  | None => Raise (Exn KeyError key)
  end.

(** [cache[key] = value] *)
Definition ttl_setitem (key : string) (value : V) (c : list (string * V))
  : list (string * V) :=
  if ttl_contains key c then ttl_remove key c ++ [(key, value)]
  else skipn (length c + 1 - maxsize) c ++ [(key, value)].

(** The entries whose key is in [dead] have outlived their time-to-live. *)
Definition ttl_expire (dead : string -> bool) (c : list (string * V))
  : list (string * V) :=
  List.filter (fun kv => negb (dead (fst kv))) c.
End TTLCache.

(** ** The external collaborators *)

(** One invocation of the graph provider: [((lat, lng), dist, network_type)]. *)
Definition download : Type := (R * R * Z * string)%type.

(** The entry points of OSMnx the service calls.  The provider reaches the
    network, so what [graph_from_point] answers may depend on the invocations
    made before; the other operations are functions of the graph. *)
Record OSMnx (Graph Node : Type) : Type := {
  (* ox.graph_from_point((lat, lng), dist=, network_type=, simplify=True) *)
  graph_from_point : list download -> R * R -> Z -> string -> result Graph;
  (* ox.speed.add_edge_speeds(G), ox.speed.add_edge_travel_times(G) *)
  add_edge_speeds : Graph -> result Graph;
  add_edge_travel_times : Graph -> result Graph;
  (* ox.nearest_nodes(G, X, Y) *)
  nearest_nodes : Graph -> R -> R -> result Node;
  (* ox.shortest_path(G, orig, dest, weight=): a route, None, or an
     exception *)
  shortest_path : Graph -> Node -> Node -> string -> result (option (list Node));
  (* ox.routing.route_to_gdf(G, route)[column].sum() *)
  route_to_gdf_sum : Graph -> list Node -> string -> result R;
  (* G.nodes[node][attr] *)
  node_attr : Graph -> Node -> string -> result R;
  (* len(G.nodes), len(G.edges) *)
  number_of_nodes : Graph -> Z;
  number_of_edges : Graph -> Z
}.
Arguments graph_from_point {Graph Node}.
Arguments add_edge_speeds {Graph Node}.
Arguments add_edge_travel_times {Graph Node}.
Arguments nearest_nodes {Graph Node}.
Arguments shortest_path {Graph Node}.
Arguments route_to_gdf_sum {Graph Node}.
Arguments node_attr {Graph Node}.
Arguments number_of_nodes {Graph Node}.
Arguments number_of_edges {Graph Node}.

(** ** The state of the service *)

Record ServiceState (Graph : Type) : Type := {
  graph_cache : list (string * Graph);     (* TTLCache(maxsize=50, ttl=3600) *)
  disk_cache : gmap string Graph;          (* Cache("./route_cache") *)
  downloads : list download                (* the provider invocations so far *)
}.
Arguments graph_cache {Graph}.
Arguments disk_cache {Graph}.
Arguments downloads {Graph}.

(** ** The service *)

Section Service.
Context {Graph Node : Type}.
Variable ox : OSMnx Graph Node.

Abbreviation State := (ServiceState Graph).

(** The three calls to the provider in the [try] of
    [get_or_download_graph]; [log] is what was asked of it before. *)
Definition download_graph (log : list download) (lat lng : R) (dist : Z)
    (network_type : string) : result Graph :=
  let* G := graph_from_point ox log (lat, lng) dist network_type in
  (* Add speeds and travel times *)
  let* G := add_edge_speeds ox G in
  add_edge_travel_times ox G.

(** Get graph from cache or download from OSM. *)
Definition get_or_download_graph (lat lng : R) (mode : string) (dist : Z)
    (s : State) : result Graph * State :=
  let cache_key := get_graph_key lat lng mode dist in
  (* Check memory cache *)
  if ttl_contains cache_key (graph_cache s) then
    match ttl_getitem cache_key (graph_cache s) with
    | Ok (G, c) =>
        (Ok G, {| graph_cache := c; disk_cache := disk_cache s;
                  downloads := downloads s |})
    | Raise e => (Raise e, s)
    end
  else
  (* Check disk cache *)
  match disk_cache s !! cache_key with
  | Some G =>
      (Ok G, {| graph_cache := ttl_setitem cache_key G (graph_cache s);
                disk_cache := disk_cache s;
                downloads := downloads s |})
  | None =>
      (* Download from OSM *)
      let network_type := get_network_type mode in
      let log := downloads s ++ [(lat, lng, dist, network_type)] in
      match download_graph (downloads s) lat lng dist network_type with
      | Ok G =>
          (* Cache the graph *)
          (Ok G, {| graph_cache := ttl_setitem cache_key G (graph_cache s);
                    disk_cache := <[cache_key := G]> (disk_cache s);
                    downloads := log |})
      | Raise e =>
          (Raise e, {| graph_cache := graph_cache s;
                       disk_cache := disk_cache s;
                       downloads := log |})
      end
  end.

(** The body of the outer [try] of [calculate_route]. *)
Definition calculate_route_try (G : Graph) (origin destination : Coordinates)
    (mode : string) : result RouteResponse :=
  (* Find nearest nodes to origin and destination *)
  let* orig_node := nearest_nodes ox G (lng origin) (lat origin) in
  let* dest_node := nearest_nodes ox G (lng destination) (lat destination) in
  (* Calculate shortest path by travel time *)
  let* route :=
    match shortest_path ox G orig_node dest_node "travel_time" with
    | Ok route => Ok route
    | Raise e =>
        if is_class NetworkXNoPath e
        then (* Fallback to length-based routing *)
             shortest_path ox G orig_node dest_node "length"
        else Raise e
    end in
  match route with
  | None =>
      Ok {| distance_km := 0; duration_minutes := 0; mode_r := mode;
            path_coordinates := None; success := false;
            error := Some "No path found between points" |}
  | Some route =>
      (* Calculate total distance and travel time *)
      let* edge_lengths := route_to_gdf_sum ox G route "length" in
      let distance_km := edge_lengths / 1000 in
      let* duration_minutes :=
        match route_to_gdf_sum ox G route "travel_time" with
        | Ok edge_times => Ok (edge_times / 60)
        | Raise e =>
            if is_class KeyError e
            then (* Fallback: estimate based on distance and average speed *)
                 Ok (distance_km / get_speed_kmh mode * 60)
            else Raise e
        end in
      (* Get route coordinates for visualization *)
      let* route_coords :=
        comprehension
          (fun node =>
             let* x := node_attr ox G node "x" in
             let* y := node_attr ox G node "y" in
             Ok [x; y])
          route in
      Ok {| distance_km := Py.round distance_km 2;
            duration_minutes := Py.round duration_minutes 1;
            mode_r := mode;
            path_coordinates := Some route_coords;
            success := true;
            error := None |}
  end.

(** Calculate shortest path between two points. *)
Definition calculate_route (G : Graph) (origin destination : Coordinates)
    (mode : string) : RouteResponse :=
  match calculate_route_try G origin destination mode with
  | Ok response => response
  | Raise e =>
      {| distance_km := 0; duration_minutes := 0; mode_r := mode;
         path_coordinates := None; success := false;
         error := Some (exn_str e) |}
  end.

(** The radius of the graph to fetch, from the straight-line distance:
    [min(max(int(direct_distance * 1500), 5000), 50000)]. *)
Definition graph_radius (direct_distance : R) : Z :=
  let graph_radius := Z.max (Py.int (direct_distance * 1500)) 5000 in
  Z.min graph_radius 50000.

(** The estimate of the fallback block, written twice in
    [calculate_single_route] with a different [error] text: road factor
    1.4, then the mode's speed. *)
Definition fallback_estimate (direct_km : R) (mode error : string)
  : RouteResponse :=
  (* Apply road factor (roads are ~1.4x direct distance on average) *)
  let road_km := direct_km * 1.4 in
  let speed := get_speed_kmh mode in
  {| distance_km := Py.round road_km 2;
     duration_minutes := Py.round (road_km / speed * 60) 1;
     mode_r := mode;
     path_coordinates := None;
     success := true;
     error := Some error |}.

Definition fallback_response (request : RouteRequest) (error : string)
  : result RouteResponse :=
  let* direct_km := haversine_distance (origin request) (destination request) in
  Ok (fallback_estimate direct_km (mode request) error).

(** The body of the [try] of [calculate_single_route]. *)
Definition calculate_single_route_try (request : RouteRequest) (s : State)
  : result RouteResponse * State :=
  (* Calculate midpoint for graph download *)
  let mid_lat := (lat (origin request) + lat (destination request)) / 2 in
  let mid_lng := (lng (origin request) + lng (destination request)) / 2 in
  (* Calculate required graph radius (with buffer) *)
  match haversine_distance (origin request) (destination request) with
  | Raise e => (Raise e, s)
  | Ok direct_distance =>
      let graph_radius := graph_radius direct_distance in
      (* Get or download the graph *)
      match get_or_download_graph mid_lat mid_lng (mode request)
              graph_radius s with
      | (Raise e, s') => (Raise e, s')
      | (Ok G, s') =>
          (* Calculate route *)
          let result :=
            calculate_route G (origin request) (destination request)
              (mode request) in
          (* If OSMnx routing failed, use fallback *)
          if negb (success result)
          then (fallback_response request "Used fallback calculation", s')
          else (Ok result, s')
      end
  end.

(** [POST /route]: calculate route between two points. *)
Definition calculate_single_route (request : RouteRequest) (s : State)
  : result RouteResponse * State :=
  match calculate_single_route_try request s with
  | (Ok response, s') => (Ok response, s')
  | (Raise e, s') =>
      (* Fallback to Haversine *)
      (fallback_response request ("Used fallback: " +:+ exn_str e), s')
  end.

(** The [for] loop of [calculate_batch_routes]. *)
Fixpoint batch_loop (todo : list RouteRequest) (results : list RouteResponse)
    (total_distance total_duration : R) (s : State)
  : result (list RouteResponse * R * R) * State :=
  match todo with
  | nil => (Ok (results, total_distance, total_duration), s)
  | route_request :: todo' =>
      match calculate_single_route route_request s with
      | (Raise e, s') => (Raise e, s')
      | (Ok result, s') =>
          let results := results ++ [result] in
          if success result
          then batch_loop todo' results
                 (total_distance + distance_km result)
                 (total_duration + duration_minutes result) s'
          else batch_loop todo' results total_distance total_duration s'
      end
  end.

(** [POST /routes/batch]: calculate multiple routes in batch. *)
Definition calculate_batch_routes (request : BatchRouteRequest) (s : State)
  : result BatchRouteResponse * State :=
  match batch_loop (routes request) [] 0 0 s with
  | (Raise e, s') => (Raise e, s')
  | (Ok (results, total_distance, total_duration), s') =>
      (Ok {| routes_r := results;
             total_distance_km := Py.round total_distance 2;
             total_duration_minutes := Py.round total_duration 1 |}, s')
  end.

(** The answer of [POST /preload] on success. *)
Record PreloadResponse : Type := {
  status : string;
  nodes : Z;
  edges : Z;
  preload_mode : string;
  radius : Z
}.

(** [POST /preload]: pre-load a graph for a region.  [mode] is a free
    string here. *)
Definition preload_graph (lat lng : R) (mode : string) (radius : Z)
    (s : State) : result PreloadResponse * State :=
  match get_or_download_graph lat lng mode radius s with
  | (Ok G, s') =>
      (Ok {| status := "success";
             nodes := number_of_nodes ox G;
             edges := number_of_edges ox G;
             preload_mode := mode;
             radius := radius |}, s')
  | (Raise e, s') => (Raise (Exn HTTPException (exn_str e)), s')
  end.

(** *** Notions the properties are stated with *)

(** The lengths and travel times the graph library sums are not negative. *)
Definition nonneg_sums : Prop :=
  forall G route column v,
    route_to_gdf_sum ox G route column = Ok v -> 0 <= v.

(** [response] is the route [calculate_route] found on the graph that the
    cache handed out for [request] in state [s]. *)
Definition graph_based (request : RouteRequest) (s : State)
    (response : RouteResponse) : Prop :=
  exists km G s',
    haversine_distance (origin request) (destination request) = Ok km
    /\ get_or_download_graph
         ((lat (origin request) + lat (destination request)) / 2)
         ((lng (origin request) + lng (destination request)) / 2)
         (mode request) (graph_radius km) s = (Ok G, s')
    /\ calculate_route G (origin request) (destination request)
         (mode request) = response
    /\ success response = true.

(** [responses] are the answers of the single-route entry point to
    [requests], one each and in their order, each computed in the state
    the one before left. *)
Inductive resolved_in_order
  : State -> list RouteRequest -> list RouteResponse -> State -> Prop :=
  | resolved_nil s : resolved_in_order s [] [] s
  | resolved_cons s request response s1 requests responses s2 :
      calculate_single_route request s = (Ok response, s1) ->
      resolved_in_order s1 requests responses s2 ->
      resolved_in_order s (request :: requests) (response :: responses) s2.

(** Every entry of the fast tier is in the durable tier. *)
Definition coherent (s : State) : Prop :=
  forall key G, In (key, G) (graph_cache s) -> disk_cache s !! key = Some G.

(** Time passes: the fast-tier entries with a key in [dead] expire. *)
Definition tick (dead : string -> bool) (s : State) : State :=
  {| graph_cache := ttl_expire dead (graph_cache s);
     disk_cache := disk_cache s;
     downloads := downloads s |}.

End Service.

(** [sum(l)], adding from the left as the loop does. *)
Definition Rsum (l : list R) : R := fold_left Rplus l 0.

(** ** The distance in binary64

    [haversine_distance] with the arithmetic of a Python [float]: IEEE 754
    binary64, rounding to nearest.  The functions of the C library that
    [math.sin], [math.cos], [x ** 2] and [math.atan2] call are the fields of
    [Libm].  [calculate_single_route] follows, with this distance; what comes
    after the distance is as in the exact model. *)

Module Binary64.
Import PrimFloat.
Local Open Scope float_scope.

Record Libm : Type := {
  sin : float -> float;
  cos : float -> float;
  pow : float -> float -> float;
  atan2 : float -> float -> float
}.

(** [math.pi] *)
Definition pi : float := 0x1.921fb54442d18p+1.

(** [math.radians(x)]: [x * (pi / 180)]. *)
Definition radians (x : float) : float := x * (pi / 180).

(** [math.sqrt]: a [ValueError] on a negative argument. *)
Definition sqrt (x : float) : result float :=
  if x <? 0 then Raise (Exn ValueError "math domain error")
  else Ok (PrimFloat.sqrt x).

(** The real number a float is; 0 for an infinity or a NaN. *)
Definition to_R (x : float) : R :=
  match FloatOps.Prim2SF x with
  | SpecFloat.S754_finite s m e =>
      ((if s then -1 else 1) * IZR (Zpos m) * powerRZ 2 e)%R
  | _ => 0%R
  end.

Record Coordinates64 : Type := { lat64 : float; lng64 : float }.

Record RouteRequest64 : Type := {
  origin64 : Coordinates64;
  destination64 : Coordinates64;
  mode64 : string
}.

Definition exact (c : Coordinates64) : Coordinates :=
  {| lat := to_R (lat64 c); lng := to_R (lng64 c) |}.

Section Distance.
Variable libm : Libm.

Definition haversine_distance (origin destination : Coordinates64)
  : result float :=
  let R_earth := 6371 in
  let lat1 := radians (lat64 origin) in
  let lng1 := radians (lng64 origin) in
  let lat2 := radians (lat64 destination) in
  let lng2 := radians (lng64 destination) in
  let dlat := lat2 - lat1 in
  let dlng := lng2 - lng1 in
  let a := pow libm (sin libm (dlat / 2)) 2
           + cos libm lat1 * cos libm lat2 * pow libm (sin libm (dlng / 2)) 2 in
  let* sa := sqrt a in
  let* sb := sqrt (1 - a) in
  let c := 2 * atan2 libm sa sb in
  Ok (R_earth * c).

Context {Graph Node : Type}.
Variable ox : OSMnx Graph Node.

Definition fallback_response (request : RouteRequest64) (error : string)
  : result RouteResponse :=
  let* direct_km :=
    haversine_distance (origin64 request) (destination64 request) in
  Ok (fallback_estimate (to_R direct_km) (mode64 request) error).

Definition calculate_single_route_try (request : RouteRequest64)
    (s : ServiceState Graph) : result RouteResponse * ServiceState Graph :=
  let mid_lat :=
    to_R ((lat64 (origin64 request) + lat64 (destination64 request)) / 2) in
  let mid_lng :=
    to_R ((lng64 (origin64 request) + lng64 (destination64 request)) / 2) in
  match haversine_distance (origin64 request) (destination64 request) with
  | Raise e => (Raise e, s)
  | Ok direct_distance =>
      let graph_radius := graph_radius (to_R direct_distance) in
      match get_or_download_graph ox mid_lat mid_lng (mode64 request)
              graph_radius s with
      | (Raise e, s') => (Raise e, s')
      | (Ok G, s') =>
          let result :=
            calculate_route ox G (exact (origin64 request))
              (exact (destination64 request)) (mode64 request) in
          if negb (success result)
          then (fallback_response request "Used fallback calculation", s')
          else (Ok result, s')
      end
  end.

Definition calculate_single_route (request : RouteRequest64)
    (s : ServiceState Graph) : result RouteResponse * ServiceState Graph :=
  match calculate_single_route_try request s with
  | (Ok response, s') => (Ok response, s')
  | (Raise e, s') =>
      (fallback_response request ("Used fallback: " +:+ exn_str e), s')
  end.
End Distance.

(** Two antipodal points, latitudes 82 south and 82 north. *)
Definition antipodal : RouteRequest64 :=
  {| origin64 := {| lat64 := -82; lng64 := -180 |};
     destination64 := {| lat64 := 82; lng64 := 0 |};
     mode64 := "drive" |}.

(** What glibc's functions return on the arguments that [antipodal] leads
    to: the sine and the cosine of [radians 82], the sine of [pi / 2], and
    their squares. *)
Definition glibc_at_antipodal (libm : Libm) : Prop :=
  sin libm (radians 82) = 0x1.fb046a930947ap-1
  /\ pow libm 0x1.fb046a930947ap-1 2 = 0x1.f6153f1af3dc1p-1
  /\ cos libm (radians 82) = 0x1.1d06c968d9e1ap-3
  /\ cos libm (radians (-82)) = 0x1.1d06c968d9e1ap-3
  /\ sin libm (pi / 2) = 1
  /\ pow libm 1 2 = 1.

(** Functions with those values. *)
Definition table : Libm :=
  {| sin x := if x =? pi / 2 then 1 else 0x1.fb046a930947ap-1;
     cos x := 0x1.1d06c968d9e1ap-3;
     pow x y := if x =? 1 then 1 else 0x1.f6153f1af3dc1p-1;
     atan2 y x := 0 |}.

End Binary64.

(** ** A small world to run the service in

    Graphs are numbered by the provider invocation that built them, nodes are
    numbers.  Every route has 2000 m of edges that take 180 s. *)

Module Toy.

Definition online (log : list download) : result nat := Ok (length log).

Definition offline (log : list download) : result nat :=
  Raise (Exn OtherException "Overpass API unreachable").

Definition osmnx (provider : list download -> result nat)
    (by_travel_time by_length : result (option (list nat)))
  : OSMnx nat nat := {|
  graph_from_point log _ _ _ := provider log;
  add_edge_speeds G := Ok G;
  add_edge_travel_times G := Ok G;
  nearest_nodes _ _ _ := Ok 1%nat;
  shortest_path _ _ _ weight :=
    if String.eqb weight "travel_time" then by_travel_time else by_length;
  route_to_gdf_sum _ _ column :=
    if String.eqb column "length" then Ok 2000 else Ok 180;
  node_attr _ node _ := Ok (INR node);
  number_of_nodes _ := 2%Z;
  number_of_edges _ := 1%Z
|}.

Definition start : ServiceState nat :=
  {| graph_cache := []; disk_cache := ∅; downloads := [] |}.

Definition point (lat lng : R) : Coordinates := {| lat := lat; lng := lng |}.

(** Two walks along the equator across the Greenwich meridian, the midpoint
    of one just west of it and of the other just east. *)
Definition west : RouteRequest :=
  {| origin := point 0 (-0.003); destination := point 0 0.001;
     mode := "walk" |}.

Definition east : RouteRequest :=
  {| origin := point 0 (-0.001); destination := point 0 0.003;
     mode := "walk" |}.

(** A tenth of a degree along the equator. *)
Definition equator : RouteRequest :=
  {| origin := point 0 0; destination := point 0 0.1; mode := "drive" |}.

(** A world whose graphs have the route 1, 2 by travel time. *)
Definition routed : OSMnx nat nat :=
  osmnx online (Ok (Some [1; 2]%nat)) (Ok None).

(** A world whose search by travel time raises "no path" and whose search by
    length finds the route 1, 2. *)
Definition no_path_raised : OSMnx nat nat :=
  osmnx online (Raise (Exn NetworkXNoPath "No path between 1 and 1."))
    (Ok (Some [1; 2]%nat)).

(** A world with two nodes, 1 on the Greenwich meridian or west of it and 2
    east of it.  The search by travel time reports that there is no path by
    returning [None]; the search by length finds the route from the one node
    to the other. *)
Definition none_found : OSMnx nat nat := {|
  graph_from_point log _ _ _ := online log;
  add_edge_speeds G := Ok G;
  add_edge_travel_times G := Ok G;
  nearest_nodes _ x _ := Ok (if Rle_dec x 0 then 1 else 2)%nat;
  shortest_path _ u v weight :=
    if String.eqb weight "travel_time" then Ok None else Ok (Some [u; v]);
  route_to_gdf_sum _ _ column :=
    if String.eqb column "length" then Ok 2000 else Ok 180;
  node_attr _ node _ := Ok (INR node);
  number_of_nodes _ := 2%Z;
  number_of_edges _ := 1%Z
|}.

(** A provider that fails when it is asked for the first time and builds a
    graph from then on. *)
Definition flaky (log : list download) : result nat :=
  match log with
  | [] => Raise (Exn OtherException "Overpass API unreachable")
  | _ :: _ => Ok (length log)
  end.

(** A world whose provider fails once. *)
Definition recovering : OSMnx nat nat :=
  osmnx flaky (Ok (Some [1; 2]%nat)) (Ok None).

(** A world without network. *)
Definition unplugged : OSMnx nat nat := osmnx offline (Ok None) (Ok None).

(** The run of [equator] from [start] in the world [routed]: the distance,
    the cache key, the answer and the state it leaves. *)
Definition equator_km : R := 6371 * Py.radians (0.1 - 0).

Definition equator_key : string :=
  get_graph_key ((0 + 0) / 2) ((0 + 0.1) / 2) "drive"
    (graph_radius equator_km).

Definition equator_route : RouteResponse :=
  {| distance_km := Py.round (2000 / 1000) 2;
     duration_minutes := Py.round (180 / 60) 1;
     mode_r := "drive";
     path_coordinates := Some [[INR 1; INR 1]; [INR 2; INR 2]];
     success := true;
     error := None |}.

Definition after_equator : ServiceState nat :=
  {| graph_cache := [(equator_key, 0%nat)];
     disk_cache := <[equator_key := 0%nat]> ∅;
     downloads := [((0 + 0) / 2, (0 + 0.1) / 2, graph_radius equator_km,
                    "drive")] |}.

End Toy.

(** ** The health check *)

Record HealthResponse : Type := {
  health_status : string;       (* status *)
  cache_size : nat;
  osmnx_version : string
}.

(** [GET /health]; [version] is [ox.__version__].  [len] of a [TTLCache]
    counts the entries that have not expired. *)
Definition health_check {Graph : Type} (version : string)
    (s : ServiceState Graph) : HealthResponse :=
  {| health_status := "healthy";
     cache_size := length (graph_cache s);
     osmnx_version := version |}.

(** ** Characters of a text *)

(** [c in s] *)
Fixpoint occurs (c : Ascii.ascii) (s : string) : bool :=
  match s with
  | EmptyString => false
  | String a s' => Ascii.eqb c a || occurs c s'
  end.

Definition digit (c : Ascii.ascii) : bool :=
  existsb (Ascii.eqb c)
    ["0"; "1"; "2"; "3"; "4"; "5"; "6"; "7"; "8"; "9"]%char.

(** A property of the state that the cache keeps. *)
Definition kept_by_cache {Graph Node : Type} (ox : OSMnx Graph Node)
    (P : ServiceState Graph -> Prop) : Prop :=
  forall lat lng mode dist s,
    P s -> P (snd (get_or_download_graph ox lat lng mode dist s)).

(** * Properties *)

(** ** Rounding and truncation *)

Section Rounding.

Lemma round_half_even_bounds (y : R) :
  y - 1 / 2 <= IZR (Py.round_half_even y) <= y + 1 / 2.
Proof.
  unfold Py.round_half_even.
  pose proof (Zfloor_bound y) as [Hlo Hhi].
  repeat destruct (Rlt_dec _ _); try destruct (Z.even _);
    rewrite ?plus_IZR; simpl; lra.
Qed.

Lemma round_half_even_nonneg (y : R) :
  0 <= y -> (0 <= Py.round_half_even y)%Z.
Proof.
  intros Hy.
  assert (0 <= Zfloor y)%Z as Hf by (apply Zfloor_lub; simpl; lra).
  unfold Py.round_half_even.
  repeat destruct (Rlt_dec _ _); try destruct (Z.even _); lia.
Qed.

(** A real within a half of an integer rounds to it. *)
Lemma round_half_even_near (z : Z) (y : R) :
  IZR z - 1 / 2 < y < IZR z + 1 / 2 -> Py.round_half_even y = z.
Proof.
  intros [Hlo Hhi]. unfold Py.round_half_even.
  pose proof (Zfloor_bound y) as [Flo Fhi].
  destruct (Rle_dec (IZR z) y) as [Hzy | Hzy].
  - assert (Zfloor y = z) as -> by (apply Zfloor_eq; lra).
    destruct (Rlt_dec _ _); [reflexivity | lra].
  - assert (Zfloor y = (z - 1)%Z) as ->
        by (apply Zfloor_eq; rewrite minus_IZR; lra).
    rewrite minus_IZR.
    destruct (Rlt_dec _ _); [lra |].
    destruct (Rlt_dec _ _); [f_equal; lia | lra].
Qed.

Lemma round_half_even_IZR (z : Z) : Py.round_half_even (IZR z) = z.
Proof. apply round_half_even_near; lra. Qed.

Lemma pow10_pos (n : nat) : 0 < 10 ^ n.
Proof. apply pow_lt; lra. Qed.

Lemma round_nonneg (x : R) (n : nat) : 0 <= x -> 0 <= Py.round x n.
Proof.
  intros Hx. unfold Py.round.
  pose proof (pow10_pos n) as Hp.
  apply Rmult_le_pos.
  - apply IZR_le, round_half_even_nonneg.
    apply Rmult_le_pos; lra.
  - apply Rlt_le, Rinv_0_lt_compat, Hp.
Qed.

End Rounding.

(** ** The great-circle distance *)

Section Haversine.

Lemma PI_bounds : 3.141592 < PI < 3.141593.
Proof.
  pose proof (PI_2_3_7_ineq 3) as [Hlo Hhi].
  unfold sum_f_R0, tg_alt, PI_2_3_7_tg, Ratan_seq in Hlo, Hhi.
  simpl in Hlo, Hhi.
  split; lra.
Qed.

Lemma cos_product (p m : R) :
  cos (p - m) * cos (p + m) = cos p ^ 2 - sin m ^ 2.
Proof.
  rewrite cos_minus, cos_plus.
  pose proof (sin2_cos2 p) as Hp. pose proof (sin2_cos2 m) as Hm.
  unfold Rsqr in Hp, Hm.
  transitivity (cos p * cos p * (cos m * cos m)
                - (sin p * sin p) * (sin m * sin m)); [ring |].
  replace (cos m * cos m) with (1 - sin m * sin m) by lra.
  replace (sin p * sin p) with (1 - cos p * cos p) by lra.
  ring.
Qed.

(** The haversine term [a] is a convex combination of a squared sine and a
    squared cosine, whatever the four angles are. *)
Lemma haversine_a_range (lat1 lat2 dlng : R) :
  let a := sin ((lat2 - lat1) / 2) ^ 2
           + cos lat1 * cos lat2 * sin (dlng / 2) ^ 2 in
  0 <= a <= 1.
Proof.
  intros a. subst a.
  set (p := (lat1 + lat2) / 2). set (m := (lat2 - lat1) / 2).
  assert (cos lat1 * cos lat2 = cos p ^ 2 - sin m ^ 2) as ->.
  { rewrite <- cos_product. unfold p, m. f_equal; f_equal; field. }
  set (s := sin (dlng / 2) ^ 2).
  assert (0 <= s <= 1) as Hs.
  { unfold s. pose proof (SIN_bound (dlng / 2)). nra. }
  assert (0 <= sin m ^ 2 <= 1) as Hm by (pose proof (SIN_bound m); nra).
  assert (0 <= cos p ^ 2 <= 1) as Hp by (pose proof (COS_bound p); nra).
  set (M := sin m ^ 2) in *. set (P := cos p ^ 2) in *.
  assert (0 <= s * P) by (apply Rmult_le_pos; lra).
  assert (0 <= (1 - s) * M) by (apply Rmult_le_pos; lra).
  assert (0 <= s * (1 - P)) by (apply Rmult_le_pos; lra).
  assert (0 <= (1 - s) * (1 - M)) by (apply Rmult_le_pos; lra).
  clearbody s M P. split; lra.
Qed.

Lemma atan2_quadrant (y x : R) :
  0 <= y -> 0 <= x -> 0 <= Py.atan2 y x <= PI / 2.
Proof.
  intros Hy Hx. unfold Py.atan2.
  pose proof PI_RGT_0 as HPI.
  destruct (Rlt_dec 0 x) as [Hpos | Hnpos].
  - pose proof (atan_bound (y / x)) as [_ Hub].
    split; [| lra].
    rewrite <- atan_0.
    destruct (Req_dec y 0) as [-> | Hne].
    + unfold Rdiv. rewrite Rmult_0_l. lra.
    + apply Rlt_le, atan_increasing.
      apply Rdiv_lt_0_compat; lra.
  - destruct (Rlt_dec x 0); [lra |].
    destruct (Rlt_dec 0 y); [lra |].
    destruct (Rlt_dec y 0); lra.
Qed.

(** A distance that [haversine_distance] returns lies between 0 and half the
    circumference. *)
Lemma haversine_distance_range (o d : Coordinates) (km : R) :
  haversine_distance o d = Ok km -> 0 <= km <= 6371 * PI.
Proof.
  unfold haversine_distance, Py.sqrt.
  destruct (Rle_dec 0 _) as [_ | _]; [| discriminate].
  destruct (Rle_dec 0 _) as [_ | _]; [| discriminate].
  simpl. intros [= <-].
  match goal with
  | |- context [Py.atan2 (sqrt ?a) (sqrt ?b)] =>
      pose proof (atan2_quadrant (sqrt a) (sqrt b) (sqrt_pos a) (sqrt_pos b))
  end.
  lra.
Qed.

(** In exact arithmetic the argument of neither square root is negative, so
    [haversine_distance] does not raise there.  (In binary64 it can: module
    [Binary64].) *)
Lemma haversine_distance_total (o d : Coordinates) :
  exists km, haversine_distance o d = Ok km /\ 0 <= km <= 6371 * PI.
Proof.
  unfold haversine_distance.
  pose proof (haversine_a_range (Py.radians (lat o)) (Py.radians (lat d))
                (Py.radians (lng d) - Py.radians (lng o))) as Ha.
  cbv zeta in Ha.
  set (a := sin _ ^ 2 + _) in *.
  unfold Py.sqrt.
  destruct (Rle_dec 0 a) as [_ | Hn]; [| lra].
  destruct (Rle_dec 0 (1 - a)) as [_ | Hn]; [| lra].
  simpl. eexists; split; [reflexivity |].
  pose proof (atan2_quadrant (sqrt a) (sqrt (1 - a))
                (sqrt_pos _) (sqrt_pos _)).
  lra.
Qed.

(** Two points on the equator less than half a turn apart, the second to
    the east: the distance is the arc between the longitudes. *)
Lemma haversine_distance_equator (x y : R) :
  0 <= y - x < 180 ->
  haversine_distance {| lat := 0; lng := x |} {| lat := 0; lng := y |}
  = Ok (6371 * Py.radians (y - x)).
Proof.
  intros Hxy. unfold haversine_distance. simpl lat. simpl lng.
  pose proof PI_RGT_0 as HPI.
  set (t := Py.radians (y - x)).
  assert (Py.radians y - Py.radians x = t) as -> by (unfold t, Py.radians; ring).
  assert (0 <= t / 2 < PI / 2) as Ht by (unfold t, Py.radians; nra).
  assert (Py.radians 0 = 0) as -> by (unfold Py.radians; ring).
  replace ((0 - 0) / 2) with 0 by field.
  rewrite sin_0, cos_0.
  replace (0 ^ 2 + 1 * 1 * sin (t / 2) ^ 2) with (Rsqr (sin (t / 2)))
    by (unfold Rsqr; ring).
  assert (0 <= sin (t / 2)) as Hsin by (apply sin_ge_0; lra).
  assert (0 < cos (t / 2)) as Hcos by (apply cos_gt_0; lra).
  assert (1 - Rsqr (sin (t / 2)) = Rsqr (cos (t / 2))) as ->
      by (pose proof (sin2_cos2 (t / 2)); lra).
  unfold Py.sqrt.
  destruct (Rle_dec 0 (Rsqr (sin (t / 2)))) as [_ | Hn];
    [| pose proof (Rle_0_sqr (sin (t / 2))); lra].
  destruct (Rle_dec 0 (Rsqr (cos (t / 2)))) as [_ | Hn];
    [| pose proof (Rle_0_sqr (cos (t / 2))); lra].
  simpl. rewrite !sqrt_Rsqr by lra.
  unfold Py.atan2. destruct (Rlt_dec 0 (cos (t / 2))); [| lra].
  change (sin (t / 2) / cos (t / 2)) with (tan (t / 2)).
  rewrite atan_tan by lra.
  f_equal. field.
Qed.

(** The angle of a point of the unit circle in the first quadrant. *)
Lemma sin_atan2_unit (y x : R) :
  0 <= y -> 0 <= x -> x * x + y * y = 1 -> sin (Py.atan2 y x) = y.
Proof.
  intros Hy Hx Hone. unfold Py.atan2.
  destruct (Rlt_dec 0 x) as [Hpos | Hnpos].
  - rewrite sin_atan.
    assert (1 + (y / x)² = (1 / x)²) as ->.
    { unfold Rsqr. field_simplify_eq; [| lra]. lra. }
    rewrite sqrt_Rsqr.
    + field. lra.
    + apply Rlt_le, Rdiv_lt_0_compat; lra.
  - assert (x = 0) as -> by lra.
    destruct (Rlt_dec 0 0) as [? | _]; [lra |].
    assert (y * y = 1) as Hy1 by lra.
    assert (y = 1) as -> by nra.
    destruct (Rlt_dec 0 1); [| lra]. apply sin_PI2.
Qed.

(** What [haversine_distance] returns is the radius 6371 times the central
    angle of the two points: the angle of [0, pi] whose cosine the spherical
    law of cosines gives. *)
Lemma haversine_distance_central_angle (o d : Coordinates) (km : R) :
  haversine_distance o d = Ok km ->
  exists c,
    km = 6371 * c
    /\ 0 <= c <= PI
    /\ cos c
       = sin (Py.radians (lat o)) * sin (Py.radians (lat d))
         + cos (Py.radians (lat o)) * cos (Py.radians (lat d))
           * cos (Py.radians (lng d) - Py.radians (lng o)).
Proof.
  unfold haversine_distance.
  set (lat1 := Py.radians (lat o)). set (lat2 := Py.radians (lat d)).
  set (dlng := Py.radians (lng d) - Py.radians (lng o)).
  set (a := sin ((lat2 - lat1) / 2) ^ 2 + _).
  unfold Py.sqrt.
  destruct (Rle_dec 0 a) as [Ha | _]; [| discriminate].
  destruct (Rle_dec 0 (1 - a)) as [Hb | _]; [| discriminate].
  simpl. intros [= <-].
  set (sa := sqrt a). set (sb := sqrt (1 - a)).
  assert (0 <= sa) as Hsa by apply sqrt_pos.
  assert (0 <= sb) as Hsb by apply sqrt_pos.
  assert (sa * sa = a) as Hsa2 by (apply sqrt_sqrt, Ha).
  assert (sb * sb = 1 - a) as Hsb2 by (apply sqrt_sqrt, Hb).
  exists (2 * Py.atan2 sa sb).
  split; [reflexivity |].
  pose proof (atan2_quadrant sa sb Hsa Hsb) as Hq.
  split; [lra |].
  rewrite cos_2a_sin, (sin_atan2_unit sa sb Hsa Hsb) by lra.
  replace (1 - 2 * sa * sa) with (1 - 2 * a) by lra.
  pose proof (cos_2a_sin ((lat2 - lat1) / 2)) as Hlat.
  pose proof (cos_2a_sin (dlng / 2)) as Hlng.
  replace (2 * ((lat2 - lat1) / 2)) with (lat2 - lat1) in Hlat by field.
  replace (2 * (dlng / 2)) with dlng in Hlng by field.
  rewrite cos_minus in Hlat.
  rewrite Hlng. unfold a.
  set (u := sin ((lat2 - lat1) / 2)) in *. set (v := sin (dlng / 2)) in *.
  simpl. nra.
Qed.

End Haversine.

Lemma equator_distance :
  haversine_distance (origin Toy.equator) (destination Toy.equator)
  = Ok Toy.equator_km.
Proof. apply haversine_distance_equator. lra. Qed.

(** ** The mode table *)

Section Modes.

Lemma get_speed_kmh_walk : get_speed_kmh "walk" = 5.
Proof. reflexivity. Qed.

Lemma get_speed_kmh_cases (m : string) :
  (m = "drive" /\ get_speed_kmh m = 40)
  \/ (m = "walk" /\ get_speed_kmh m = 5)
  \/ (m = "bike" /\ get_speed_kmh m = 15)
  \/ ((m ∉ mode_literals) /\ get_speed_kmh m = 40).
Proof.
  destruct (decide (m = "drive")) as [-> | Hd]; [left; split; reflexivity |].
  destruct (decide (m = "walk")) as [-> | Hw];
    [right; left; split; reflexivity |].
  destruct (decide (m = "bike")) as [-> | Hb];
    [right; right; left; split; reflexivity |].
  right; right; right. split.
  - unfold mode_literals. rewrite !elem_of_cons, elem_of_nil. tauto.
  - unfold get_speed_kmh.
    rewrite !lookup_insert_ne, lookup_singleton_ne by congruence.
    reflexivity.
Qed.

Lemma get_speed_kmh_pos (m : string) : 0 < get_speed_kmh m.
Proof.
  destruct (get_speed_kmh_cases m) as [[_ ->] | [[_ ->] | [[_ ->] | [_ ->]]]];
    lra.
Qed.

Lemma get_network_type_unknown (m : string) :
  m ∉ mode_literals -> get_network_type m = "drive".
Proof.
  unfold mode_literals. rewrite !elem_of_cons, elem_of_nil. intros Hm.
  unfold get_network_type.
  rewrite !lookup_insert_ne, lookup_singleton_ne by (intros <-; tauto).
  reflexivity.
Qed.

Lemma get_speed_kmh_unknown (m : string) :
  m ∉ mode_literals -> get_speed_kmh m = 40.
Proof.
  intros Hm.
  destruct (get_speed_kmh_cases m) as [[-> E] | [[-> E] | [[-> E] | [_ E]]]];
    try exact E; exfalso; apply Hm; unfold mode_literals;
    rewrite !elem_of_cons; tauto.
Qed.

End Modes.

(** ** Unknown modes *)

Section UnknownMode.
Context {Graph Node : Type}.
Variable ox : OSMnx Graph Node.

(** C7, as the code has it.  The two tables send a mode outside
    {drive, walk, bike} to the network type "drive" and to 40 km/h, and
    [preload_graph], whose [mode] is a free string, then asks the provider
    for a drive network; the body of a route request with such a mode does
    not pass validation. *)
Theorem unknown_mode_defaults (m : string) :
  m ∉ mode_literals ->
  get_network_type m = "drive"
  /\ get_speed_kmh m = 40
  /\ (forall o d, exists e,
        validate_RouteRequest
          {| body_origin := o; body_destination := d; body_mode := Some m |}
        = Raise e /\ exn_kind e = ValidationError)
  /\ (forall lat lng radius (s : ServiceState Graph),
        ttl_contains (get_graph_key lat lng m radius) (graph_cache s) = false ->
        disk_cache s !! get_graph_key lat lng m radius = None ->
        downloads (snd (preload_graph ox lat lng m radius s))
        = downloads s ++ [(lat, lng, radius, "drive")]).
Proof.
  intros Hm. split; [| split; [| split]].
  - apply get_network_type_unknown, Hm.
  - apply get_speed_kmh_unknown, Hm.
  - intros o d. unfold validate_RouteRequest. simpl.
    destruct (check_Coordinates o && check_Coordinates d).
    + rewrite bool_decide_eq_false_2 by exact Hm.
      eexists; split; reflexivity.
    + eexists; split; reflexivity.
  - intros lat0 lng0 radius0 s Hfast Hdisk.
    unfold preload_graph, get_or_download_graph.
    rewrite Hfast, Hdisk, (get_network_type_unknown m Hm).
    destruct (download_graph _ _ _ _ _ _); reflexivity.
Qed.

End UnknownMode.

Lemma car_not_a_mode : "car" ∉ mode_literals.
Proof.
  unfold mode_literals. rewrite !elem_of_cons, elem_of_nil.
  intros [H | [H | [H | []]]]; discriminate H.
Qed.

Lemma check_Coordinates_true (c : Coordinates) :
  Coordinates_in_range c -> check_Coordinates c = true.
Proof.
  intros [[H1 H2] [H3 H4]]. unfold check_Coordinates.
  repeat destruct (Rle_dec _ _); try reflexivity; lra.
Qed.

Lemma point_in_range (x y : R) :
  -90 <= x <= 90 -> -180 <= y <= 180 -> Coordinates_in_range (Toy.point x y).
Proof. intros Hx Hy. split; simpl; assumption. Qed.

(** A witness of [unknown_mode_defaults]: the mode "car". *)
Lemma unknown_mode_defaults_car :
  ("car" ∉ mode_literals)
  /\ get_network_type "car" = "drive"
  /\ get_speed_kmh "car" = 40
  /\ downloads
       (snd (preload_graph (Toy.osmnx Toy.online (Ok None) (Ok None))
               0 0 "car" 10000 Toy.start))
     = [(0, 0, 10000%Z, "drive")].
Proof.
  split; [exact car_not_a_mode |].
  destruct (unknown_mode_defaults (Toy.osmnx Toy.online (Ok None) (Ok None))
              "car" car_not_a_mode) as (Hn & Hs & _ & Hp).
  split; [exact Hn |]. split; [exact Hs |].
  apply (Hp 0 0 10000%Z Toy.start); reflexivity.
Defined.

(** C7 as stated fails on the route endpoints: a well-formed body whose mode
    is "car" is rejected with a validation error. *)
Lemma unknown_mode_rejected_by_validation :
  ("car" ∉ mode_literals)
  /\ Coordinates_in_range (Toy.point 0 0)
  /\ validate_RouteRequest
       {| body_origin := Toy.point 0 0; body_destination := Toy.point 0 0;
          body_mode := Some "car" |}
     = Raise (Exn ValidationError "Input should be 'drive', 'walk' or 'bike'").
Proof.
  split; [exact car_not_a_mode |].
  assert (Coordinates_in_range (Toy.point 0 0)) as Hr
      by (apply point_in_range; lra).
  split; [exact Hr |].
  unfold validate_RouteRequest. simpl.
  rewrite (check_Coordinates_true _ Hr). reflexivity.
Qed.

(** ** The geometric fallback *)

Section Fallback.

Lemma round_exact (z : Z) (n : nat) (x : R) :
  x * 10 ^ n = IZR z -> Py.round x n = x.
Proof.
  intros Hx. unfold Py.round. rewrite Hx, round_half_even_IZR, <- Hx.
  pose proof (pow10_pos n). field. lra.
Qed.

Lemma haversine_distance_same (p : Coordinates) :
  haversine_distance p p = Ok 0.
Proof.
  unfold haversine_distance.
  replace ((Py.radians (lat p) - Py.radians (lat p)) / 2) with 0 by field.
  replace ((Py.radians (lng p) - Py.radians (lng p)) / 2) with 0 by field.
  rewrite sin_0.
  replace (0 ^ 2 + cos (Py.radians (lat p)) * cos (Py.radians (lat p)) * 0 ^ 2)
    with 0 by ring.
  replace (1 - 0) with 1 by ring.
  unfold Py.sqrt.
  destruct (Rle_dec 0 0) as [_ | Hn]; [| lra].
  destruct (Rle_dec 0 1) as [_ | Hn]; [| lra].
  simpl. rewrite sqrt_0, sqrt_1.
  unfold Py.atan2. destruct (Rlt_dec 0 1) as [_ | Hn]; [| lra].
  replace (0 / 1) with 0 by field. rewrite atan_0.
  f_equal. ring.
Qed.

Lemma haversine_distance_quarter :
  haversine_distance (Toy.point 0 0) (Toy.point 0 90) = Ok (6371 * (PI / 2)).
Proof.
  unfold Toy.point. rewrite haversine_distance_equator by lra.
  unfold Py.radians. f_equal. field.
Qed.

End Fallback.

(** ** The radius of the graph *)

Section Radius.
Context {Graph Node : Type}.
Variable ox : OSMnx Graph Node.

Lemma graph_radius_floor (km : R) :
  0 <= km ->
  graph_radius km = Z.min (Z.max (Zfloor (km * 1500)) 5000) 50000.
Proof.
  intros Hkm. unfold graph_radius, Py.int.
  destruct (Rle_dec 0 (km * 1500)) as [_ | Hn]; [reflexivity | lra].
Qed.

Lemma clamp_floor (v : R) :
  let r := Z.min (Z.max (Zfloor v) 5000) 50000 in
  Rmin (Rmax v 5000) 50000 - 1 < IZR r <= Rmin (Rmax v 5000) 50000.
Proof.
  intros r. subst r.
  pose proof (Zfloor_bound v) as [Hlo Hhi].
  unfold Rmin, Rmax.
  destruct (Z.max_spec (Zfloor v) 5000) as [[H1 ->] | [H1 ->]];
    [apply IZR_lt in H1 | apply IZR_le in H1].
  - destruct (Z.min_spec 5000 50000) as [[_ ->] | [H2 _]]; [| lia].
    repeat destruct (Rle_dec _ _); lra.
  - destruct (Z.min_spec (Zfloor v) 50000) as [[H2 ->] | [H2 ->]];
      [apply IZR_lt in H2 | apply IZR_le in H2];
      repeat destruct (Rle_dec _ _); lra.
Qed.

Lemma get_or_download_graph_downloads (lat lng : R) (mode : string)
    (dist : Z) (s : ServiceState Graph) :
  let s' := snd (get_or_download_graph ox lat lng mode dist s) in
  downloads s' = downloads s
  \/ downloads s' = downloads s ++ [(lat, lng, dist, get_network_type mode)].
Proof.
  unfold get_or_download_graph.
  destruct (ttl_contains _ _).
  - destruct (ttl_getitem _ _) as [[G c] | e]; simpl; auto.
  - destruct (disk_cache s !! _); [simpl; auto |].
    destruct (download_graph _ _ _ _ _ _); simpl; auto.
Qed.

(** The state the single-route entry point leaves is the one the cache
    leaves. *)
Lemma calculate_single_route_state (request : RouteRequest)
    (s : ServiceState Graph) (km : R) :
  haversine_distance (origin request) (destination request) = Ok km ->
  snd (calculate_single_route ox request s)
  = snd (get_or_download_graph ox
           ((lat (origin request) + lat (destination request)) / 2)
           ((lng (origin request) + lng (destination request)) / 2)
           (mode request) (graph_radius km) s).
Proof.
  intros Hkm.
  unfold calculate_single_route, calculate_single_route_try.
  rewrite Hkm.
  destruct (get_or_download_graph _ _ _ _ _ _) as [[G | e] s1]; simpl.
  - destruct (negb _); unfold fallback_response; rewrite ?Hkm; reflexivity.
  - reflexivity.
Qed.

(** What the provider is asked for, if it is asked at all, by the single-route
    entry point: the midpoint, the radius and the network type of the mode. *)
Lemma calculate_single_route_downloads (request : RouteRequest)
    (s : ServiceState Graph) (km : R) :
  haversine_distance (origin request) (destination request) = Ok km ->
  let s' := snd (calculate_single_route ox request s) in
  downloads s' = downloads s
  \/ downloads s'
     = downloads s
       ++ [((lat (origin request) + lat (destination request)) / 2,
            (lng (origin request) + lng (destination request)) / 2,
            graph_radius km, get_network_type (mode request))].
Proof.
  intros Hkm s'. subst s'.
  rewrite (calculate_single_route_state request s km Hkm).
  apply get_or_download_graph_downloads.
Qed.

(** C4, as the code has it.  For a pair of points whose straight-line
    distance [haversine_distance] computed, the radius is that distance times
    1500 cut to a whole number of meters by [int], then clamped: an integer
    of [5000, 50000] that is at most the clamped product and less than one
    below it; and it is the radius the entry point asks the provider for. *)
Theorem graph_radius_clamped (request : RouteRequest) (s : ServiceState Graph)
    (km : R) :
  haversine_distance (origin request) (destination request) = Ok km ->
  graph_radius km = Z.min (Z.max (Zfloor (km * 1500)) 5000) 50000
  /\ (5000 <= graph_radius km <= 50000)%Z
  /\ Rmin (Rmax (km * 1500) 5000) 50000 - 1 < IZR (graph_radius km)
     <= Rmin (Rmax (km * 1500) 5000) 50000
  /\ (forall entry,
        downloads (snd (calculate_single_route ox request s))
        = downloads s ++ [entry] ->
        snd (fst entry) = graph_radius km).
Proof.
  intros Hkm.
  destruct (haversine_distance_range _ _ _ Hkm) as [Hpos _].
  pose proof (graph_radius_floor km Hpos) as Hr.
  split; [exact Hr |]. split; [rewrite Hr; lia |].
  split; [rewrite Hr; apply clamp_floor |].
  intros entry Hlog.
  destruct (calculate_single_route_downloads request s km Hkm) as [H | H];
    rewrite H in Hlog.
  - apply (f_equal (@length _)) in Hlog.
    rewrite length_app in Hlog. simpl in Hlog. lia.
  - apply app_inv_head in Hlog. injection Hlog as <-. reflexivity.
Qed.

End Radius.

(** C4 as stated fails: a tenth of a degree along the equator is
    6371 * pi / 1800 km, times 1500 about 16679.24; the radius is 16679. *)
Lemma graph_radius_is_truncated :
  exists km,
    haversine_distance (origin Toy.equator) (destination Toy.equator) = Ok km
    /\ graph_radius km = 16679%Z
    /\ IZR (graph_radius km) <> Rmin (Rmax (km * 1500) 5000) 50000.
Proof.
  exists (6371 * Py.radians (0.1 - 0)).
  split; [apply haversine_distance_equator; lra |].
  pose proof PI_bounds as [Hlo Hhi].
  set (km := 6371 * Py.radians (0.1 - 0)).
  assert (16679.2 < km * 1500 < 16679.3) as Hv
      by (unfold km, Py.radians; lra).
  assert (graph_radius km = 16679%Z) as Hr.
  { rewrite graph_radius_floor by (unfold km, Py.radians; lra).
    rewrite (Zfloor_eq 16679) by lra. reflexivity. }
  split; [exact Hr |].
  rewrite Hr. unfold Rmin, Rmax.
  repeat destruct (Rle_dec _ _); lra.
Qed.

(** ** The route calculator *)

Ltac step_in H :=
  match type of H with
  | context [match ?x with _ => _ end] =>
      let E := fresh "E" in destruct x eqn:E; try discriminate H
  end.

Section RouteCalculator.
Context {Graph Node : Type}.
Variable ox : OSMnx Graph Node.

(** A response of [calculate_route] with [success] set is the one built at
    the end of its [try]: no error text, the path present, and distance and
    duration rounded from sums of the graph. *)
Lemma calculate_route_success (G : Graph) (o d : Coordinates) (m : string) :
  success (calculate_route ox G o d m) = true ->
  error (calculate_route ox G o d m) = None
  /\ mode_r (calculate_route ox G o d m) = m
  /\ path_coordinates (calculate_route ox G o d m) <> None
  /\ (nonneg_sums ox ->
      0 <= distance_km (calculate_route ox G o d m)
      /\ 0 <= duration_minutes (calculate_route ox G o d m)).
Proof.
  unfold calculate_route.
  destruct (calculate_route_try ox G o d m) as [r | e] eqn:Htry;
    [| simpl; discriminate].
  intros Hok.
  unfold calculate_route_try, bind in Htry.
  repeat step_in Htry; injection Htry as <-; [| discriminate Hok].
  simpl. repeat split; try discriminate.
  - apply round_nonneg.
    pose proof (H _ _ _ _ E3). lra.
  - apply round_nonneg.
    destruct (route_to_gdf_sum ox G l "travel_time") as [t | e] eqn:Et.
    + injection E4 as <-. pose proof (H _ _ _ _ Et). lra.
    + destruct (is_class KeyError e); [| discriminate E4].
      injection E4 as <-.
      pose proof (H _ _ _ _ E3). pose proof (get_speed_kmh_pos m).
      apply Rmult_le_pos; [| lra].
      apply Rmult_le_pos; [lra |].
      apply Rlt_le, Rinv_0_lt_compat; assumption.
Qed.

(** A response of [calculate_route] without [success] carries an error
    text. *)
Lemma calculate_route_failure (G : Graph) (o d : Coordinates) (m : string) :
  success (calculate_route ox G o d m) = false ->
  error (calculate_route ox G o d m) <> None.
Proof.
  unfold calculate_route.
  destruct (calculate_route_try ox G o d m) as [r | e] eqn:Htry;
    [| simpl; discriminate].
  intros Hok.
  unfold calculate_route_try, bind in Htry.
  repeat step_in Htry; injection Htry as <-; [discriminate Hok |].
  simpl. discriminate.
Qed.

(** The retry that the code has: when the search by travel time raises
    [NetworkXNoPath] and the search by length returns a route whose sums and
    coordinates can be read, that route is the answer, with [success]
    set. *)
Lemma length_retry_on_NetworkXNoPath (G : Graph) (o d : Coordinates)
    (m : string) (orig_node dest_node : Node) (e : exn) (route : list Node)
    (edge_lengths edge_times : R) (coords : list (list R)) :
  nearest_nodes ox G (lng o) (lat o) = Ok orig_node ->
  nearest_nodes ox G (lng d) (lat d) = Ok dest_node ->
  shortest_path ox G orig_node dest_node "travel_time" = Raise e ->
  exn_kind e = NetworkXNoPath ->
  shortest_path ox G orig_node dest_node "length" = Ok (Some route) ->
  route_to_gdf_sum ox G route "length" = Ok edge_lengths ->
  route_to_gdf_sum ox G route "travel_time" = Ok edge_times ->
  comprehension
    (fun node =>
       let* x := node_attr ox G node "x" in
       let* y := node_attr ox G node "y" in
       Ok [x; y]) route = Ok coords ->
  calculate_route ox G o d m
  = {| distance_km := Py.round (edge_lengths / 1000) 2;
       duration_minutes := Py.round (edge_times / 60) 1;
       mode_r := m;
       path_coordinates := Some coords;
       success := true;
       error := None |}.
Proof.
  intros Ho Hd Htime Hkind Hlen Hsum Htimes Hcoords.
  unfold calculate_route, calculate_route_try.
  rewrite Ho, Hd. simpl.
  rewrite Htime. unfold is_class. rewrite Hkind, Hlen. simpl.
  rewrite Hsum. simpl. rewrite Htimes. simpl.
  rewrite Hcoords. reflexivity.
Qed.

(** C2 fails on the code.  The retry by length is made in
    [except nx.NetworkXNoPath] only.  When the search by travel time reports
    that there is no path by returning [None], the way [ox.shortest_path]
    reports it, the answer is the failure "No path found between points",
    although the search by length has a route: the length-weighted path is
    not returned. *)
Theorem weight_fallback_skipped_on_None (G : Graph) (o d : Coordinates)
    (m : string) (orig_node dest_node : Node) (route : list Node) :
  nearest_nodes ox G (lng o) (lat o) = Ok orig_node ->
  nearest_nodes ox G (lng d) (lat d) = Ok dest_node ->
  shortest_path ox G orig_node dest_node "travel_time" = Ok None ->
  shortest_path ox G orig_node dest_node "length" = Ok (Some route) ->
  success (calculate_route ox G o d m) = false
  /\ path_coordinates (calculate_route ox G o d m) = None
  /\ calculate_route ox G o d m
     = {| distance_km := 0; duration_minutes := 0; mode_r := m;
          path_coordinates := None; success := false;
          error := Some "No path found between points" |}.
Proof.
  intros Ho Hd Htime _.
  assert (calculate_route ox G o d m
          = {| distance_km := 0; duration_minutes := 0; mode_r := m;
               path_coordinates := None; success := false;
               error := Some "No path found between points" |}) as ->.
  { unfold calculate_route, calculate_route_try.
    rewrite Ho, Hd. simpl. rewrite Htime. reflexivity. }
  repeat split.
Qed.

End RouteCalculator.

(** The retry at work: in the world where "no path" is raised as
    [NetworkXNoPath], the route by length comes back. *)
Example length_retry_no_path_raised :
  calculate_route Toy.no_path_raised 0%nat (Toy.point 0 0) (Toy.point 0 0.1)
    "drive"
  = {| distance_km := Py.round (2000 / 1000) 2;
       duration_minutes := Py.round (180 / 60) 1;
       mode_r := "drive";
       path_coordinates := Some [[INR 1; INR 1]; [INR 2; INR 2]];
       success := true;
       error := None |}.
Proof.
  exact (length_retry_on_NetworkXNoPath Toy.no_path_raised 0%nat
           (Toy.point 0 0) (Toy.point 0 0.1) "drive" 1%nat 1%nat
           (Exn NetworkXNoPath "No path between 1 and 1.") [1; 2]%nat
           2000 180 [[INR 1; INR 1]; [INR 2; INR 2]]
           eq_refl eq_refl eq_refl eq_refl eq_refl eq_refl eq_refl eq_refl).
Qed.

Lemma none_found_nodes :
  nearest_nodes Toy.none_found 0%nat (lng (Toy.point 0 0)) (lat (Toy.point 0 0))
  = Ok 1%nat
  /\ nearest_nodes Toy.none_found 0%nat (lng (Toy.point 0 0.1))
       (lat (Toy.point 0 0.1))
     = Ok 2%nat.
Proof.
  simpl. split; destruct (Rle_dec _ 0); try reflexivity; lra.
Qed.

(** A witness of [weight_fallback_skipped_on_None]: from node 1 on the
    Greenwich meridian to node 2 east of it, the search by length has the
    route 1, 2, the search by travel time answers [None], and the calculator
    reports "No path found between points". *)
Lemma weight_fallback_skipped_on_None_two_nodes :
  let G := 0%nat in
  let o := Toy.point 0 0 in
  let d := Toy.point 0 0.1 in
  shortest_path Toy.none_found G 1%nat 2%nat "length" = Ok (Some [1; 2]%nat)
  /\ success (calculate_route Toy.none_found G o d "drive") = false
  /\ path_coordinates (calculate_route Toy.none_found G o d "drive") = None
  /\ calculate_route Toy.none_found G o d "drive"
     = {| distance_km := 0; duration_minutes := 0; mode_r := "drive";
          path_coordinates := None; success := false;
          error := Some "No path found between points" |}.
Proof.
  split; [reflexivity |].
  exact (weight_fallback_skipped_on_None Toy.none_found 0%nat (Toy.point 0 0)
           (Toy.point 0 0.1) "drive" 1%nat 2%nat [1; 2]%nat
           (proj1 none_found_nodes) (proj2 none_found_nodes)
           eq_refl eq_refl).
Defined.

(** ** The single-route entry point *)

Section SingleRoute.
Context {Graph Node : Type}.
Variable ox : OSMnx Graph Node.

(** The three ways [calculate_single_route] answers once the distance is
    computed: the route found on the graph; the estimate after a failed
    route calculation; the estimate after an exception. *)
Lemma calculate_single_route_at (request : RouteRequest)
    (s : ServiceState Graph) (km : R) :
  haversine_distance (origin request) (destination request) = Ok km ->
  match get_or_download_graph ox
          ((lat (origin request) + lat (destination request)) / 2)
          ((lng (origin request) + lng (destination request)) / 2)
          (mode request) (graph_radius km) s with
  | (Ok G, s') =>
      let result :=
        calculate_route ox G (origin request) (destination request)
          (mode request) in
      calculate_single_route ox request s
      = (Ok (if success result then result
             else fallback_estimate km (mode request)
                    "Used fallback calculation"), s')
  | (Raise e, s') =>
      calculate_single_route ox request s
      = (Ok (fallback_estimate km (mode request)
               ("Used fallback: " +:+ exn_str e)), s')
  end.
Proof.
  intros Hkm.
  unfold calculate_single_route, calculate_single_route_try.
  rewrite Hkm.
  destruct (get_or_download_graph _ _ _ _ _ _) as [[G | e] s1].
  - cbv zeta. destruct (success _); simpl.
    + reflexivity.
    + unfold fallback_response. rewrite Hkm. reflexivity.
  - unfold fallback_response. rewrite Hkm. reflexivity.
Qed.

(** The entry point answers when the distance is computed, and only then:
    both fallback blocks call [haversine_distance] again. *)
Lemma calculate_single_route_returns (request : RouteRequest)
    (s : ServiceState Graph) (km : R) :
  haversine_distance (origin request) (destination request) = Ok km ->
  exists response s', calculate_single_route ox request s = (Ok response, s').
Proof.
  intros Hkm. pose proof (calculate_single_route_at request s km Hkm) as Hrun.
  destruct (get_or_download_graph _ _ _ _ _ _) as [[G | e] s1];
    eexists; eexists; exact Hrun.
Qed.

Lemma calculate_single_route_measured (request : RouteRequest)
    (s s' : ServiceState Graph) (response : RouteResponse) :
  calculate_single_route ox request s = (Ok response, s') ->
  exists km, haversine_distance (origin request) (destination request) = Ok km.
Proof.
  unfold calculate_single_route, calculate_single_route_try, fallback_response.
  destruct (haversine_distance _ _) as [km | e]; [eauto |].
  simpl. discriminate.
Qed.

(** In exact arithmetic the distance is always computed, so one of the three
    answers is given for every request. *)
Lemma calculate_single_route_cases (request : RouteRequest)
    (s : ServiceState Graph) :
  exists km,
    haversine_distance (origin request) (destination request) = Ok km
    /\ 0 <= km
    /\ match get_or_download_graph ox
               ((lat (origin request) + lat (destination request)) / 2)
               ((lng (origin request) + lng (destination request)) / 2)
               (mode request) (graph_radius km) s with
       | (Ok G, s') =>
           let result :=
             calculate_route ox G (origin request) (destination request)
               (mode request) in
           calculate_single_route ox request s
           = (Ok (if success result then result
                  else fallback_estimate km (mode request)
                         "Used fallback calculation"), s')
       | (Raise e, s') =>
           calculate_single_route ox request s
           = (Ok (fallback_estimate km (mode request)
                    ("Used fallback: " +:+ exn_str e)), s')
       end.
Proof.
  destruct (haversine_distance_total (origin request) (destination request))
    as (km & Hkm & Hpos & _).
  exists km. split; [exact Hkm |]. split; [exact Hpos |].
  exact (calculate_single_route_at request s km Hkm).
Qed.

Lemma fallback_estimate_nonneg (km : R) (m e : string) :
  0 <= km ->
  0 <= distance_km (fallback_estimate km m e)
  /\ 0 <= duration_minutes (fallback_estimate km m e).
Proof.
  intros Hkm. unfold fallback_estimate. simpl.
  pose proof (get_speed_kmh_pos m) as Hs.
  split; apply round_nonneg; [lra |].
  apply Rmult_le_pos; [| lra].
  apply Rmult_le_pos; [lra |].
  apply Rlt_le, Rinv_0_lt_compat, Hs.
Qed.

Lemma calculate_single_route_sets_success (request : RouteRequest)
    (s s' : ServiceState Graph) (response : RouteResponse) :
  calculate_single_route ox request s = (Ok response, s') ->
  success response = true.
Proof.
  intros Hrun.
  destruct (calculate_single_route_cases request s) as (km & _ & _ & Hcase).
  destruct (get_or_download_graph _ _ _ _ _ _) as [[G | e] s1].
  - cbv zeta in Hcase. rewrite Hcase in Hrun.
    destruct (success (calculate_route ox G _ _ _)) eqn:Hok;
      injection Hrun as <- <-; [exact Hok | reflexivity].
  - rewrite Hcase in Hrun. injection Hrun as <- <-. reflexivity.
Qed.

(** In exact arithmetic a request with coordinates in range is answered,
    never with an exception: the answer has [success] set and a distance and
    a duration that are not negative, and it is either the route found on the
    graph or an estimate annotated "Used fallback...".  The sums the graph
    library returns are taken not to be negative.  (The range is not used:
    [haversine_distance_total] holds for all angles.) *)
Lemma calculate_single_route_succeeds (request : RouteRequest)
    (s : ServiceState Graph) :
  Coordinates_in_range (origin request) ->
  Coordinates_in_range (destination request) ->
  nonneg_sums ox ->
  exists response s',
    calculate_single_route ox request s = (Ok response, s')
    /\ success response = true
    /\ 0 <= distance_km response
    /\ 0 <= duration_minutes response
    /\ (graph_based ox request s response
        \/ exists annotation,
             error response = Some annotation
             /\ String.prefix "Used fallback" annotation = true).
Proof.
  intros _ _ Hnn.
  destruct (calculate_single_route_cases request s) as (km & Hkm & Hpos & Hrun).
  destruct (get_or_download_graph _ _ _ _ _ _) as [[G | e] s1] eqn:Hget.
  - cbv zeta in Hrun.
    destruct (success (calculate_route ox G _ _ _)) eqn:Hok.
    + exists (calculate_route ox G (origin request) (destination request)
                (mode request)), s1.
      destruct (calculate_route_success ox G _ _ _ Hok)
        as (_ & _ & _ & Hsums).
      destruct (Hsums Hnn) as [Hd Ht].
      repeat split; try assumption.
      left. exists km, G, s1. repeat split; assumption.
    + exists (fallback_estimate km (mode request) "Used fallback calculation"),
        s1.
      destruct (fallback_estimate_nonneg km (mode request)
                  "Used fallback calculation" Hpos) as [Hd Ht].
      repeat split; try assumption.
      right. eexists; split; reflexivity.
  - exists (fallback_estimate km (mode request)
              ("Used fallback: " +:+ exn_str e)), s1.
    destruct (fallback_estimate_nonneg km (mode request)
                ("Used fallback: " +:+ exn_str e) Hpos) as [Hd Ht].
    repeat split; try assumption.
    right. eexists; split; reflexivity.
Qed.

(** C10.  In an answer of [calculate_single_route], [success] is set, and
    [error] is [None] exactly when the answer is the route found on the
    graph; every other answer carries a text that begins with
    "Used fallback". *)
Theorem error_marks_fallback (request : RouteRequest)
    (s s' : ServiceState Graph) (response : RouteResponse) :
  calculate_single_route ox request s = (Ok response, s') ->
  success response = true
  /\ (error response = None <-> graph_based ox request s response)
  /\ (~ graph_based ox request s response ->
      exists annotation,
        error response = Some annotation
        /\ String.prefix "Used fallback" annotation = true).
Proof.
  intros Hrun.
  assert (forall r, graph_based ox request s r -> error r = None) as Hgraph.
  { intros r (km & G & s1 & _ & _ & <- & Hok).
    apply (calculate_route_success ox G _ _ _ Hok). }
  destruct (calculate_single_route_cases request s) as (km & Hkm & Hpos & Hcase).
  destruct (get_or_download_graph _ _ _ _ _ _) as [[G | e] s1] eqn:Hget.
  - cbv zeta in Hcase. rewrite Hcase in Hrun.
    destruct (success (calculate_route ox G _ _ _)) eqn:Hok;
      injection Hrun as <- <-.
    + assert (graph_based ox request s
                (calculate_route ox G (origin request) (destination request)
                   (mode request))) as Hg
          by (exists km, G, s1; repeat split; assumption).
      split; [exact Hok |]. split; [| tauto].
      split; [intros _; exact Hg | apply Hgraph].
    + split; [reflexivity |]. split.
      * split; [discriminate |]. intros Hg. apply Hgraph in Hg.
        discriminate Hg.
      * intros _. eexists; split; reflexivity.
  - rewrite Hcase in Hrun. injection Hrun as <- <-.
    split; [reflexivity |]. split.
    + split; [discriminate |]. intros Hg. apply Hgraph in Hg.
      discriminate Hg.
    + intros _. eexists; split; reflexivity.
Qed.

End SingleRoute.

(** ** The estimator *)

Section Estimator.

(** C5.  The distance [haversine_distance] returns is the great-circle
    distance on a sphere of radius 6371: the radius times the central angle
    of the two points, the angle of [0, pi] given by the spherical law of
    cosines.  From a point to itself it is 0; a quarter of the equator is
    6371 * pi / 2 km, within 0.05 of 10007.5.  The estimate is the distance
    times 1.4, rounded to 2 decimals, and the time that road distance takes
    at the speed of the mode, in minutes rounded to 1 decimal: for 10 km on
    foot 14 km of road and 168 minutes.  It is what the entry point answers
    when the route calculation on the acquired graph failed. *)
Theorem fallback_correctness :
  (forall o d km,
     haversine_distance o d = Ok km ->
     exists c,
       km = 6371 * c
       /\ 0 <= c <= PI
       /\ cos c
          = sin (Py.radians (lat o)) * sin (Py.radians (lat d))
            + cos (Py.radians (lat o)) * cos (Py.radians (lat d))
              * cos (Py.radians (lng d) - Py.radians (lng o)))
  /\ (forall p, haversine_distance p p = Ok 0)
  /\ (exists km,
        haversine_distance (Toy.point 0 0) (Toy.point 0 90) = Ok km
        /\ km = 6371 * (PI / 2)
        /\ Rabs (km - 10007.5) < 0.05)
  /\ (forall km m error,
        distance_km (fallback_estimate km m error) = Py.round (km * 1.4) 2
        /\ (m = "walk" ->
            duration_minutes (fallback_estimate km m error)
            = Py.round (km * 1.4 / 5 * 60) 1)
        /\ (m = "bike" ->
            duration_minutes (fallback_estimate km m error)
            = Py.round (km * 1.4 / 15 * 60) 1)
        /\ (m = "drive" ->
            duration_minutes (fallback_estimate km m error)
            = Py.round (km * 1.4 / 40 * 60) 1))
  /\ (forall error,
        distance_km (fallback_estimate 10 "walk" error) = 14
        /\ duration_minutes (fallback_estimate 10 "walk" error) = 168
        /\ duration_minutes (fallback_estimate 10 "walk" error)
           = 10 * 1.4 / 5 * 60)
  /\ (forall (Graph Node : Type) (ox : OSMnx Graph Node)
             (request : RouteRequest) (s s' : ServiceState Graph) (km : R)
             (G : Graph),
        haversine_distance (origin request) (destination request) = Ok km ->
        get_or_download_graph ox
          ((lat (origin request) + lat (destination request)) / 2)
          ((lng (origin request) + lng (destination request)) / 2)
          (mode request) (graph_radius km) s = (Ok G, s') ->
        success (calculate_route ox G (origin request) (destination request)
                   (mode request)) = false ->
        calculate_single_route ox request s
        = (Ok (fallback_estimate km (mode request)
                 "Used fallback calculation"), s')).
Proof.
  split; [exact haversine_distance_central_angle |].
  split; [exact haversine_distance_same |]. split.
  { exists (6371 * (PI / 2)).
    split; [exact haversine_distance_quarter |]. split; [reflexivity |].
    pose proof PI_bounds as [Hlo Hhi].
    apply Rabs_def1; lra. }
  split.
  { intros km m e. unfold fallback_estimate. simpl.
    split; [reflexivity |].
    repeat split; intros ->; do 3 f_equal; reflexivity. }
  split.
  { intros e. unfold fallback_estimate. simpl.
    rewrite get_speed_kmh_walk.
    rewrite (round_exact 1400 2) by (simpl; lra).
    rewrite (round_exact 1680 1) by (simpl; lra).
    repeat split; lra. }
  intros Graph Node ox request s s' km G Hkm Hget Hfail.
  pose proof (calculate_single_route_at ox request s km Hkm) as Hrun.
  rewrite Hget in Hrun. cbv zeta in Hrun. rewrite Hfail in Hrun. exact Hrun.
Qed.

End Estimator.

(** A witness of [fallback_correctness]: the central angle of a tenth of a
    degree along the equator. *)
Lemma fallback_correctness_equator :
  exists c,
    Toy.equator_km = 6371 * c
    /\ 0 <= c <= PI
    /\ cos c
       = sin (Py.radians (lat (origin Toy.equator)))
         * sin (Py.radians (lat (destination Toy.equator)))
         + cos (Py.radians (lat (origin Toy.equator)))
           * cos (Py.radians (lat (destination Toy.equator)))
           * cos (Py.radians (lng (destination Toy.equator))
                  - Py.radians (lng (origin Toy.equator))).
Proof.
  exact (proj1 fallback_correctness (origin Toy.equator)
           (destination Toy.equator) Toy.equator_km equator_distance).
Defined.

(** *** A run of the entry point *)

Lemma routed_nonneg_sums : nonneg_sums Toy.routed.
Proof.
  intros G route column v. simpl.
  destruct (String.eqb column "length"); intros [= <-]; lra.
Qed.

Lemma equator_run :
  calculate_single_route Toy.routed Toy.equator Toy.start
  = (Ok Toy.equator_route, Toy.after_equator).
Proof.
  unfold calculate_single_route, calculate_single_route_try.
  simpl origin. simpl destination. unfold Toy.point.
  rewrite haversine_distance_equator by lra.
  unfold get_or_download_graph. simpl ttl_contains. cbv iota.
  change (disk_cache Toy.start) with (∅ : gmap string nat).
  rewrite lookup_empty. reflexivity.
Qed.

(** A batch of that one request. *)
Example equator_batch :
  calculate_batch_routes Toy.routed {| routes := [Toy.equator] |} Toy.start
  = (Ok {| routes_r := [Toy.equator_route];
           total_distance_km := Py.round (0 + Py.round (2000 / 1000) 2) 2;
           total_duration_minutes := Py.round (0 + Py.round (180 / 60) 1) 1 |},
     Toy.after_equator).
Proof.
  unfold calculate_batch_routes. simpl. rewrite equator_run. reflexivity.
Qed.

(** A witness of [calculate_single_route_succeeds]. *)
Lemma calculate_single_route_succeeds_equator :
  exists response s',
    calculate_single_route Toy.routed Toy.equator Toy.start = (Ok response, s')
    /\ success response = true
    /\ 0 <= distance_km response
    /\ 0 <= duration_minutes response
    /\ (graph_based Toy.routed Toy.equator Toy.start response
        \/ exists annotation,
             error response = Some annotation
             /\ String.prefix "Used fallback" annotation = true).
Proof.
  apply (calculate_single_route_succeeds Toy.routed Toy.equator Toy.start).
  - apply point_in_range; lra.
  - apply point_in_range; lra.
  - exact routed_nonneg_sums.
Defined.

(** A witness of [error_marks_fallback]. *)
Lemma error_marks_fallback_equator :
  success Toy.equator_route = true
  /\ (error Toy.equator_route = None
      <-> graph_based Toy.routed Toy.equator Toy.start Toy.equator_route)
  /\ (~ graph_based Toy.routed Toy.equator Toy.start Toy.equator_route ->
      exists annotation,
        error Toy.equator_route = Some annotation
        /\ String.prefix "Used fallback" annotation = true).
Proof.
  exact (error_marks_fallback Toy.routed Toy.equator Toy.start
           Toy.after_equator Toy.equator_route equator_run).
Defined.

(** A witness of [graph_radius_clamped]: a tenth of a degree along the
    equator. *)
Lemma graph_radius_clamped_equator :
  let km := Toy.equator_km in
  graph_radius km = Z.min (Z.max (Zfloor (km * 1500)) 5000) 50000
  /\ (5000 <= graph_radius km <= 50000)%Z
  /\ Rmin (Rmax (km * 1500) 5000) 50000 - 1 < IZR (graph_radius km)
     <= Rmin (Rmax (km * 1500) 5000) 50000
  /\ (forall entry,
        downloads (snd (calculate_single_route Toy.routed Toy.equator
                          Toy.start))
        = downloads Toy.start ++ [entry] ->
        snd (fst entry) = graph_radius km).
Proof.
  exact (graph_radius_clamped Toy.routed Toy.equator Toy.start Toy.equator_km
           equator_distance).
Defined.

(** ** The batch endpoint *)

Section Batch.
Context {Graph Node : Type}.
Variable ox : OSMnx Graph Node.

Lemma resolved_in_order_length (s s' : ServiceState Graph)
    (requests : list RouteRequest) (responses : list RouteResponse) :
  resolved_in_order ox s requests responses s' ->
  length responses = length requests.
Proof. induction 1; simpl; congruence. Qed.

(** Requests whose distances are computed are all answered, and only
    those. *)
Lemma resolved_in_order_returns (requests : list RouteRequest) :
  Forall (fun request =>
            exists km,
              haversine_distance (origin request) (destination request)
              = Ok km) requests ->
  forall s : ServiceState Graph,
  exists responses s', resolved_in_order ox s requests responses s'.
Proof.
  induction 1 as [| request requests [km Hkm] _ IH]; intros s.
  - exists [], s. constructor.
  - destruct (calculate_single_route_returns ox request s km Hkm)
      as (r & s1 & Hr).
    destruct (IH s1) as (rs & s2 & Hrs).
    exists (r :: rs), s2. econstructor; eassumption.
Qed.

Lemma resolved_in_order_measured (s s' : ServiceState Graph)
    (requests : list RouteRequest) (responses : list RouteResponse) :
  resolved_in_order ox s requests responses s' ->
  Forall (fun request =>
            exists km,
              haversine_distance (origin request) (destination request)
              = Ok km) requests.
Proof.
  induction 1 as [| s0 request response s1 requests responses s2 Hrun _ IH];
    constructor; [| exact IH].
  eapply calculate_single_route_measured; exact Hrun.
Qed.

(** The loop, started with [results] and the two running totals, on requests
    that are answered: it appends the answers in order and adds to each
    total, from the left, the values of the answers that have [success]
    set. *)
Lemma batch_loop_resolved (s s' : ServiceState Graph)
    (todo : list RouteRequest) (responses : list RouteResponse) :
  resolved_in_order ox s todo responses s' ->
  forall (results : list RouteResponse) (total_distance total_duration : R),
    batch_loop ox todo results total_distance total_duration s
    = (Ok (results ++ responses,
           fold_left Rplus
             (map distance_km (List.filter success responses))
             total_distance,
           fold_left Rplus
             (map duration_minutes (List.filter success responses))
             total_duration), s').
Proof.
  induction 1 as [| s0 request r s1 requests rs s2 Hrun _ IH];
    intros results td tt.
  - simpl. rewrite app_nil_r. reflexivity.
  - simpl. rewrite Hrun.
    destruct (success r) eqn:Hok; rewrite IH; simpl;
      rewrite <- app_assoc; reflexivity.
Qed.

(** A loop that returns has answered every request. *)
Lemma batch_loop_inv (todo : list RouteRequest) :
  forall (results out : list RouteResponse)
         (total_distance total_duration d t : R) (s s' : ServiceState Graph),
    batch_loop ox todo results total_distance total_duration s
    = (Ok (out, d, t), s') ->
    exists responses, resolved_in_order ox s todo responses s'.
Proof.
  induction todo as [| request todo IH]; intros results out td tt d t s s'.
  - simpl. intros [= _ _ _ <-]. exists []. constructor.
  - simpl.
    destruct (calculate_single_route ox request s) as [[r | e] s1] eqn:Hrun;
      [| discriminate].
    destruct (success r); intros Hloop; apply IH in Hloop as [rs Hrs];
      exists (r :: rs); econstructor; eassumption.
Qed.

(** The batch endpoint on requests that are answered. *)
Lemma batch_of_resolved (s s' : ServiceState Graph)
    (requests : list RouteRequest) (responses : list RouteResponse) :
  resolved_in_order ox s requests responses s' ->
  calculate_batch_routes ox {| routes := requests |} s
  = (Ok {| routes_r := responses;
           total_distance_km :=
             Py.round
               (Rsum (map distance_km (List.filter success responses))) 2;
           total_duration_minutes :=
             Py.round
               (Rsum (map duration_minutes (List.filter success responses)))
               1 |}, s').
Proof.
  intros Hrs. unfold calculate_batch_routes. simpl.
  rewrite (batch_loop_resolved _ _ _ _ Hrs). reflexivity.
Qed.

(** A batch that returns has answered every request. *)
Lemma batch_resolved (requests : list RouteRequest)
    (s s' : ServiceState Graph) (response : BatchRouteResponse) :
  calculate_batch_routes ox {| routes := requests |} s = (Ok response, s') ->
  resolved_in_order ox s requests (routes_r response) s'.
Proof.
  intros Hrun. pose proof Hrun as Hloop.
  unfold calculate_batch_routes in Hloop. simpl in Hloop.
  destruct (batch_loop ox requests [] 0 0 s) as [[[[out d] t] | e] s1] eqn:Hl;
    [| discriminate].
  destruct (batch_loop_inv _ _ _ _ _ _ _ _ _ Hl) as [rs Hrs].
  rewrite (batch_of_resolved _ _ _ _ Hrs) in Hrun.
  injection Hrun as <- <-. exact Hrs.
Qed.

(** C6.  The batch endpoint answers exactly when the distance of every
    request is computed.  In its answer [routes] holds the answers of the
    single-route entry point to the requests, one each and in their order,
    and each total is the rounded sum over the answers with [success]
    set. *)
Theorem calculate_batch_routes_spec (request : BatchRouteRequest)
    (s : ServiceState Graph) :
  (Forall (fun r =>
             exists km, haversine_distance (origin r) (destination r) = Ok km)
     (routes request)
   <-> exists response s',
         calculate_batch_routes ox request s = (Ok response, s'))
  /\ (forall response s',
        calculate_batch_routes ox request s = (Ok response, s') ->
        resolved_in_order ox s (routes request) (routes_r response) s'
        /\ length (routes_r response) = length (routes request)
        /\ total_distance_km response
           = Py.round
               (Rsum (map distance_km
                        (List.filter success (routes_r response))))
               2
        /\ total_duration_minutes response
           = Py.round
               (Rsum (map duration_minutes
                        (List.filter success (routes_r response))))
               1).
Proof.
  destruct request as [requests]. simpl routes. split; [split |].
  - intros Hall.
    destruct (resolved_in_order_returns requests Hall s) as (rs & s' & Hrs).
    eexists; eexists. exact (batch_of_resolved _ _ _ _ Hrs).
  - intros (response & s' & Hrun).
    eapply resolved_in_order_measured, batch_resolved, Hrun.
  - intros response s' Hrun.
    pose proof (batch_resolved _ _ _ _ Hrun) as Hrs.
    rewrite (batch_of_resolved _ _ _ _ Hrs) in Hrun.
    injection Hrun as <-. simpl.
    split; [exact Hrs |].
    split; [eapply resolved_in_order_length; exact Hrs |].
    split; reflexivity.
Qed.

(** Every answer in a batch has [success] set, so the totals run over all
    of [routes]. *)
Lemma resolved_in_order_success (s s' : ServiceState Graph)
    (requests : list RouteRequest) (responses : list RouteResponse) :
  resolved_in_order ox s requests responses s' ->
  List.filter success responses = responses.
Proof.
  induction 1 as [| s0 request response s1 requests responses s2 Hrun _ IH].
  - reflexivity.
  - simpl.
    rewrite (calculate_single_route_sets_success ox _ _ _ _ Hrun), IH.
    reflexivity.
Qed.

End Batch.

(** A witness of [calculate_batch_routes_spec]: the batch of the one request
    along the equator. *)
Lemma calculate_batch_routes_spec_equator :
  let response :=
    {| routes_r := [Toy.equator_route];
       total_distance_km := Py.round (0 + Py.round (2000 / 1000) 2) 2;
       total_duration_minutes := Py.round (0 + Py.round (180 / 60) 1) 1 |} in
  resolved_in_order Toy.routed Toy.start [Toy.equator] (routes_r response)
    Toy.after_equator
  /\ length (routes_r response) = length [Toy.equator]
  /\ total_distance_km response
     = Py.round
         (Rsum (map distance_km (List.filter success (routes_r response)))) 2
  /\ total_duration_minutes response
     = Py.round
         (Rsum (map duration_minutes
                  (List.filter success (routes_r response)))) 1.
Proof.
  exact (proj2 (calculate_batch_routes_spec Toy.routed
                  {| routes := [Toy.equator] |} Toy.start)
           _ _ equator_batch).
Defined.

(** ** The fast tier *)

Section TTLCacheFacts.
Context {V : Type}.
Implicit Types (c : list (string * V)) (key : string) (v : V).

Lemma ttl_contains_lookup key c :
  ttl_contains key c = true ->
  exists v, ttl_lookup key c = Some v /\ In (key, v) c.
Proof.
  unfold ttl_contains, ttl_lookup.
  induction c as [| [k v] c IH]; simpl; [discriminate |].
  destruct (String.eqb key k) eqn:Hk; simpl.
  - apply String.eqb_eq in Hk as ->. intros _. exists v. auto.
  - intros Hc. destruct (IH Hc) as (v' & Hv' & Hin). exists v'. auto.
Qed.

Lemma In_ttl_remove key c (kv : string * V) :
  In kv (ttl_remove key c) -> In kv c.
Proof. unfold ttl_remove. rewrite filter_In. tauto. Qed.

Lemma In_ttl_expire (dead : string -> bool) c (kv : string * V) :
  In kv (ttl_expire dead c) -> In kv c.
Proof. unfold ttl_expire. rewrite filter_In. tauto. Qed.

Lemma In_skipn (n : nat) c (kv : string * V) : In kv (skipn n c) -> In kv c.
Proof.
  revert c. induction n as [| n IH]; intros [| x c]; simpl; auto.
Qed.

Lemma In_ttl_setitem key v c (kv : string * V) :
  In kv (ttl_setitem key v c) -> kv = (key, v) \/ In kv c.
Proof.
  unfold ttl_setitem.
  destruct (ttl_contains key c); rewrite in_app_iff; simpl;
    intros [Hin | [<- | []]]; auto; right.
  - eapply In_ttl_remove, Hin.
  - eapply In_skipn, Hin.
Qed.

Lemma In_ttl_getitem key c v c' (kv : string * V) :
  ttl_getitem key c = Ok (v, c') -> In kv c' -> In kv c.
Proof.
  unfold ttl_getitem.
  destruct (ttl_lookup key c) as [v0 |] eqn:Hl; [| discriminate].
  intros [= <- <-]. rewrite in_app_iff. simpl.
  intros [Hin | [<- | []]]; [eapply In_ttl_remove, Hin |].
  unfold ttl_lookup in Hl.
  destruct (List.find _ c) as [[k v'] |] eqn:Hf; [| discriminate].
  injection Hl as <-. apply find_some in Hf as [Hin Hk].
  apply String.eqb_eq in Hk. simpl in Hk. subst k. exact Hin.
Qed.

End TTLCacheFacts.

(** ** The two-tier cache *)

Section GraphCache.
Context {Graph Node : Type}.
Variable ox : OSMnx Graph Node.

(** C8.  On a miss in both tiers, when one of the calls to the provider
    raises, [get_or_download_graph] raises the same exception and leaves
    both tiers as they were. *)
Theorem download_failure_leaves_caches (lat lng : R) (mode : string)
    (dist : Z) (s : ServiceState Graph) (e : exn) :
  ttl_contains (get_graph_key lat lng mode dist) (graph_cache s) = false ->
  disk_cache s !! get_graph_key lat lng mode dist = None ->
  download_graph ox (downloads s) lat lng dist (get_network_type mode)
  = Raise e ->
  exists s',
    get_or_download_graph ox lat lng mode dist s = (Raise e, s')
    /\ graph_cache s' = graph_cache s
    /\ disk_cache s' = disk_cache s.
Proof.
  intros Hfast Hdisk Hbuild. unfold get_or_download_graph.
  rewrite Hfast, Hdisk, Hbuild.
  eexists. split; [reflexivity |]. split; reflexivity.
Qed.

(** Whatever makes [get_or_download_graph] raise, the tiers are as they
    were. *)
Lemma get_or_download_graph_raise (lat lng : R) (mode : string) (dist : Z)
    (s s' : ServiceState Graph) (e : exn) :
  get_or_download_graph ox lat lng mode dist s = (Raise e, s') ->
  graph_cache s' = graph_cache s /\ disk_cache s' = disk_cache s.
Proof.
  unfold get_or_download_graph.
  destruct (ttl_contains _ _).
  - destruct (ttl_getitem _ _) as [[G c] | e0]; intros [= <- <-]; auto.
  - destruct (disk_cache s !! _); [discriminate |].
    destruct (download_graph _ _ _ _ _ _); intros [= <- <-]; auto.
Qed.

(** A graph that [get_or_download_graph] hands out is in the durable tier
    under the key of the call, and coherence of the tiers is kept. *)
Lemma get_or_download_graph_stores (lat lng : R) (mode : string) (dist : Z)
    (s s' : ServiceState Graph) (G : Graph) :
  coherent s ->
  get_or_download_graph ox lat lng mode dist s = (Ok G, s') ->
  coherent s' /\ disk_cache s' !! get_graph_key lat lng mode dist = Some G.
Proof.
  intros Hco. unfold get_or_download_graph.
  set (key := get_graph_key lat lng mode dist).
  destruct (ttl_contains key (graph_cache s)) eqn:Hfast.
  - destruct (ttl_contains_lookup _ _ Hfast) as (v & Hv & Hin).
    unfold ttl_getitem. rewrite Hv. intros [= <- <-]. split.
    + intros k G' Hk. simpl in *. apply Hco.
      apply in_app_iff in Hk as [Hk | [[= <- <-] | []]];
        [eapply In_ttl_remove, Hk | exact Hin].
    + simpl. apply Hco, Hin.
  - destruct (disk_cache s !! key) as [G0 |] eqn:Hdisk.
    + intros [= <- <-]. split; [| exact Hdisk].
      intros k G' Hk. simpl in *.
      apply In_ttl_setitem in Hk as [[= -> ->] | Hk]; auto.
    + destruct (download_graph _ _ _ _ _ _) as [G0 | e]; [| discriminate].
      intros [= <- <-]. split; [| apply lookup_insert_eq].
      intros k G' Hk. simpl in *.
      apply In_ttl_setitem in Hk as [[= -> ->] | Hk];
        [apply lookup_insert_eq |].
      rewrite lookup_insert_ne; [apply Hco, Hk |].
      intros <-. apply Hco in Hk. congruence.
Qed.

(** Build once, then reuse: after a call that handed out [G], a call whose
    key is the same hands out [G] again and the provider is not asked,
    whichever fast-tier entries expired in between. *)
Lemma get_or_download_graph_reuse (lat lng lat' lng' : R)
    (mode mode' : string) (dist dist' : Z) (s s1 : ServiceState Graph)
    (G : Graph) (dead : string -> bool) :
  coherent s ->
  get_or_download_graph ox lat lng mode dist s = (Ok G, s1) ->
  get_graph_key lat' lng' mode' dist' = get_graph_key lat lng mode dist ->
  exists s2,
    get_or_download_graph ox lat' lng' mode' dist' (tick dead s1) = (Ok G, s2)
    /\ downloads s2 = downloads s1.
Proof.
  intros Hco Hget Hkey.
  destruct (get_or_download_graph_stores _ _ _ _ _ _ _ Hco Hget)
    as [Hco1 Hdisk].
  unfold get_or_download_graph. rewrite Hkey.
  set (key := get_graph_key lat lng mode dist) in *. simpl.
  destruct (ttl_contains key (ttl_expire dead (graph_cache s1))) eqn:Hfast.
  - destruct (ttl_contains_lookup _ _ Hfast) as (v & Hv & Hin).
    apply In_ttl_expire, Hco1 in Hin.
    assert (v = G) as -> by congruence.
    unfold ttl_getitem. rewrite Hv. eexists; split; reflexivity.
  - rewrite Hdisk. eexists; split; reflexivity.
Qed.

(** A failed download is not remembered: the next call with the same key asks
    the provider again. *)
Lemma get_or_download_graph_retry (lat lng lat' lng' : R)
    (mode mode' : string) (dist dist' : Z) (s s1 : ServiceState Graph)
    (e : exn) (dead : string -> bool) :
  ttl_contains (get_graph_key lat lng mode dist) (graph_cache s) = false ->
  disk_cache s !! get_graph_key lat lng mode dist = None ->
  get_or_download_graph ox lat lng mode dist s = (Raise e, s1) ->
  get_graph_key lat' lng' mode' dist' = get_graph_key lat lng mode dist ->
  downloads (snd (get_or_download_graph ox lat' lng' mode' dist' (tick dead s1)))
  = downloads s
    ++ [(lat, lng, dist, get_network_type mode);
        (lat', lng', dist', get_network_type mode')].
Proof.
  intros Hfast Hdisk Hget Hkey.
  assert (ttl_contains (get_graph_key lat lng mode dist)
            (ttl_expire dead (graph_cache s)) = false) as Hfast'.
  { destruct (ttl_contains _ (ttl_expire dead (graph_cache s))) eqn:Hc;
      [| reflexivity].
    destruct (ttl_contains_lookup _ _ Hc) as (v & Hv & Hin).
    apply In_ttl_expire in Hin.
    assert (ttl_contains (get_graph_key lat lng mode dist) (graph_cache s)
            = true) as Ht; [| congruence].
    apply existsb_exists.
    exists (get_graph_key lat lng mode dist, v).
    split; [exact Hin | apply String.eqb_refl]. }
  unfold get_or_download_graph in Hget. rewrite Hfast, Hdisk in Hget.
  destruct (download_graph ox (downloads s) lat lng dist _);
    [discriminate |].
  injection Hget as _ <-.
  unfold get_or_download_graph, tick. simpl. rewrite Hkey, Hfast', Hdisk.
  destruct (download_graph ox _ lat' lng' dist' _); simpl;
    rewrite <- app_assoc; reflexivity.
Qed.

Lemma coherent_tick (dead : string -> bool) (s : ServiceState Graph) :
  coherent s -> coherent (tick dead s).
Proof.
  intros Hco k G Hk. simpl in *. apply Hco. eapply In_ttl_expire, Hk.
Qed.

(** No entry expires. *)
Lemma ttl_expire_none {V : Type} (c : list (string * V)) :
  ttl_expire (fun _ => false) c = c.
Proof.
  unfold ttl_expire. induction c as [| kv c IH]; [reflexivity |].
  simpl. f_equal. exact IH.
Qed.

Lemma tick_none (s : ServiceState Graph) : tick (fun _ => false) s = s.
Proof. destruct s. unfold tick. simpl. rewrite ttl_expire_none. reflexivity. Qed.

Lemma ttl_contains_expire {V : Type} (dead : string -> bool) (key : string)
    (c : list (string * V)) :
  ttl_contains key c = false -> ttl_contains key (ttl_expire dead c) = false.
Proof.
  intros Hc.
  destruct (ttl_contains key (ttl_expire dead c)) eqn:He; [| reflexivity].
  destruct (ttl_contains_lookup _ _ He) as (v & Hv & Hin).
  apply In_ttl_expire in Hin.
  assert (ttl_contains key c = true) as Ht; [| congruence].
  apply existsb_exists. exists (key, v).
  split; [exact Hin | apply String.eqb_refl].
Qed.

(** C9, as the code has it.  [get_or_download_graph] never suspends, so two
    requests for one key are served one after the other, with or without
    expiry of fast-tier entries in between; there is no guard that joins
    them.  When the first misses both tiers, it asks the provider once.  If
    its build succeeds, the second request gets the same graph and the
    provider is not asked again.  If its build fails, nothing is kept: the
    second request misses both tiers too, the provider is asked a second
    time, and the second request gets what that build gives. *)
Theorem build_once_in_sequence (lat lng lat' lng' : R) (mode mode' : string)
    (dist dist' : Z) (s s1 t s2 : ServiceState Graph) (r1 r2 : result Graph) :
  coherent s ->
  ttl_contains (get_graph_key lat lng mode dist) (graph_cache s) = false ->
  disk_cache s !! get_graph_key lat lng mode dist = None ->
  get_graph_key lat' lng' mode' dist' = get_graph_key lat lng mode dist ->
  get_or_download_graph ox lat lng mode dist s = (r1, s1) ->
  (t = s1 \/ exists dead, t = tick dead s1) ->
  get_or_download_graph ox lat' lng' mode' dist' t = (r2, s2) ->
  downloads s1 = downloads s ++ [(lat, lng, dist, get_network_type mode)]
  /\ match r1 with
     | Ok G => r2 = Ok G /\ downloads s2 = downloads s1
     | Raise e =>
         graph_cache s1 = graph_cache s
         /\ disk_cache s1 = disk_cache s
         /\ r2 = download_graph ox (downloads s1) lat' lng' dist'
                   (get_network_type mode')
         /\ downloads s2
            = downloads s1 ++ [(lat', lng', dist', get_network_type mode')]
     end.
Proof.
  intros Hco Hfast Hdisk Hkey Hfirst Ht Hsecond.
  assert (exists dead, t = tick dead s1) as [dead ->].
  { destruct Ht as [-> | Ht]; [| exact Ht].
    exists (fun _ => false). symmetry. apply tick_none. }
  pose proof Hfirst as Hrun.
  unfold get_or_download_graph in Hrun. rewrite Hfast, Hdisk in Hrun.
  destruct (download_graph ox (downloads s) lat lng dist _) as [G | e];
    injection Hrun as <- <-.
  - split; [reflexivity |].
    destruct (get_or_download_graph_reuse _ _ _ _ _ _ _ _ _ _ _ dead
                Hco Hfirst Hkey) as (s2' & Hre & Hlog).
    rewrite Hre in Hsecond. injection Hsecond as <- <-.
    split; [reflexivity | exact Hlog].
  - split; [reflexivity |]. split; [reflexivity |]. split; [reflexivity |].
    unfold get_or_download_graph, tick in Hsecond. simpl in Hsecond.
    rewrite Hkey, (ttl_contains_expire dead _ _ Hfast), Hdisk in Hsecond.
    simpl.
    destruct (download_graph ox _ lat' lng' dist' _);
      injection Hsecond as <- <-; split; reflexivity.
Qed.

End GraphCache.

Lemma coherent_start : coherent Toy.start.
Proof. intros k G []. Qed.

(** A witness of [download_failure_leaves_caches]: the first request of a
    service without network. *)
Lemma download_failure_leaves_caches_unplugged :
  exists s',
    get_or_download_graph Toy.unplugged 0 0 "drive" 5000 Toy.start
    = (Raise (Exn OtherException "Overpass API unreachable"), s')
    /\ graph_cache s' = graph_cache Toy.start
    /\ disk_cache s' = disk_cache Toy.start.
Proof.
  apply (download_failure_leaves_caches Toy.unplugged 0 0 "drive" 5000
           Toy.start).
  - reflexivity.
  - apply lookup_empty.
  - reflexivity.
Defined.

(** The first two requests of a service whose provider fails once. *)
Lemma recovering_first :
  get_or_download_graph Toy.recovering 0 0 "drive" 5000 Toy.start
  = (Raise (Exn OtherException "Overpass API unreachable"),
     {| graph_cache := []; disk_cache := ∅;
        downloads := [(0, 0, 5000%Z, "drive")] |}).
Proof.
  unfold get_or_download_graph. simpl ttl_contains. cbv iota.
  change (disk_cache Toy.start) with (∅ : gmap string nat).
  rewrite lookup_empty. reflexivity.
Qed.

Lemma recovering_second :
  let key := get_graph_key 0 0 "drive" 5000 in
  get_or_download_graph Toy.recovering 0 0 "drive" 5000
    {| graph_cache := []; disk_cache := ∅;
       downloads := [(0, 0, 5000%Z, "drive")] |}
  = (Ok 1%nat,
     {| graph_cache := [(key, 1%nat)];
        disk_cache := <[key := 1%nat]> ∅;
        downloads := [(0, 0, 5000%Z, "drive"); (0, 0, 5000%Z, "drive")] |}).
Proof.
  unfold get_or_download_graph. simpl ttl_contains. cbv iota.
  simpl disk_cache. rewrite lookup_empty. reflexivity.
Qed.

(** C9 as stated fails.  Two requests for one key, served one after the
    other: the first misses both tiers and its build fails; the second misses
    both tiers as well and asks the provider again.  The provider is asked
    twice, the first caller gets the failure and the second a graph. *)
Lemma two_misses_two_downloads :
  let key := get_graph_key 0 0 "drive" 5000 in
  let first :=
    get_or_download_graph Toy.recovering 0 0 "drive" 5000 Toy.start in
  let second :=
    get_or_download_graph Toy.recovering 0 0 "drive" 5000 (snd first) in
  (ttl_contains key (graph_cache Toy.start) = false
   /\ disk_cache Toy.start !! key = None)
  /\ (ttl_contains key (graph_cache (snd first)) = false
      /\ disk_cache (snd first) !! key = None)
  /\ fst first = Raise (Exn OtherException "Overpass API unreachable")
  /\ fst second = Ok 1%nat
  /\ downloads (snd second)
     = [(0, 0, 5000%Z, "drive"); (0, 0, 5000%Z, "drive")].
Proof.
  intros key first second. subst first second.
  rewrite recovering_first. simpl snd. rewrite recovering_second. simpl.
  repeat split; apply lookup_empty.
Qed.

(** A witness of [build_once_in_sequence]: those two requests. *)
Lemma build_once_in_sequence_recovering :
  let key := get_graph_key 0 0 "drive" 5000 in
  let s1 := {| graph_cache := []; disk_cache := ∅;
               downloads := [(0, 0, 5000%Z, "drive")] |} in
  let s2 := {| graph_cache := [(key, 1%nat)];
               disk_cache := <[key := 1%nat]> ∅;
               downloads := [(0, 0, 5000%Z, "drive");
                             (0, 0, 5000%Z, "drive")] |} in
  downloads s1 = downloads Toy.start ++ [(0, 0, 5000%Z, "drive")]
  /\ graph_cache s1 = graph_cache Toy.start
  /\ disk_cache s1 = disk_cache Toy.start
  /\ Ok 1%nat
     = download_graph Toy.recovering (downloads s1) 0 0 5000 "drive"
  /\ downloads s2 = downloads s1 ++ [(0, 0, 5000%Z, "drive")].
Proof.
  exact (build_once_in_sequence Toy.recovering 0 0 0 0 "drive" "drive"
           5000 5000 Toy.start _ _ _ _ _
           coherent_start eq_refl (lookup_empty _) eq_refl
           recovering_first (or_introl eq_refl) recovering_second).
Defined.

(** ** The cache key *)

Section CacheKey.

(** Two midpoints that round to the same floats, the sign of a zero
    included, have the same key. *)
Lemma get_graph_key_same_rounding (lat1 lng1 lat2 lng2 : R) (mode : string)
    (dist : Z) :
  Py.round_half_even (lat1 * 10 ^ 2) = Py.round_half_even (lat2 * 10 ^ 2) ->
  Py.round_half_even (lng1 * 10 ^ 2) = Py.round_half_even (lng2 * 10 ^ 2) ->
  (lat1 < 0 <-> lat2 < 0) ->
  (lng1 < 0 <-> lng2 < 0) ->
  get_graph_key lat1 lng1 mode dist = get_graph_key lat2 lng2 mode dist.
Proof.
  intros Hlat Hlng Slat Slng. unfold get_graph_key, Py.repr_round2.
  rewrite Hlat, Hlng.
  destruct (Rlt_dec lat1 0), (Rlt_dec lat2 0), (Rlt_dec lng1 0),
    (Rlt_dec lng2 0); tauto || reflexivity.
Qed.

Lemma get_graph_key_west :
  get_graph_key 51.48 (-0.001) "walk" 5000 = "51.48_-0.0_walk_5000".
Proof.
  unfold get_graph_key, Py.repr_round2.
  rewrite (round_half_even_near 5148 (51.48 * 10 ^ 2)) by (simpl; lra).
  rewrite (round_half_even_near 0 (-0.001 * 10 ^ 2)) by (simpl; lra).
  destruct (Rlt_dec 51.48 0); [lra |].
  destruct (Rlt_dec (-0.001) 0); [| lra].
  reflexivity.
Qed.

Lemma get_graph_key_east :
  get_graph_key 51.48 0.001 "walk" 5000 = "51.48_0.0_walk_5000".
Proof.
  unfold get_graph_key, Py.repr_round2.
  rewrite (round_half_even_near 5148 (51.48 * 10 ^ 2)) by (simpl; lra).
  rewrite (round_half_even_near 0 (0.001 * 10 ^ 2)) by (simpl; lra).
  destruct (Rlt_dec 51.48 0); [lra |].
  destruct (Rlt_dec 0.001 0); [lra |].
  reflexivity.
Qed.

Lemma round_zero_cell (x : R) : -0.005 < x < 0.005 -> Py.round x 2 = 0.
Proof.
  intros Hx. unfold Py.round.
  rewrite (round_half_even_near 0) by (simpl; lra).
  simpl. lra.
Qed.

End CacheKey.

(** The same split seen from the entry point: two requests of 445 m across the
    meridian on the equator, midpoints (0, -0.001) and (0, 0.001), radius
    5000 both; the second one downloads again. *)
Lemma zero_cell_requests :
  let s1 := snd (calculate_single_route Toy.routed Toy.west Toy.start) in
  let s2 := snd (calculate_single_route Toy.routed Toy.east s1) in
  get_graph_key ((0 + 0) / 2) ((-0.003 + 0.001) / 2) "walk" 5000
  = "0.0_-0.0_walk_5000"
  /\ get_graph_key ((0 + 0) / 2) ((-0.001 + 0.003) / 2) "walk" 5000
     = "0.0_0.0_walk_5000"
  /\ downloads s2
     = [((0 + 0) / 2, (-0.003 + 0.001) / 2, 5000%Z, "walk");
        ((0 + 0) / 2, (-0.001 + 0.003) / 2, 5000%Z, "walk")].
Proof.
  assert (get_graph_key ((0 + 0) / 2) ((-0.003 + 0.001) / 2) "walk" 5000
          = "0.0_-0.0_walk_5000") as Kw.
  { unfold get_graph_key, Py.repr_round2.
    rewrite (round_half_even_near 0 ((0 + 0) / 2 * 10 ^ 2)) by (simpl; lra).
    rewrite (round_half_even_near 0 ((-0.003 + 0.001) / 2 * 10 ^ 2))
      by (simpl; lra).
    destruct (Rlt_dec ((0 + 0) / 2) 0); [lra |].
    destruct (Rlt_dec ((-0.003 + 0.001) / 2) 0); [| lra].
    reflexivity. }
  assert (get_graph_key ((0 + 0) / 2) ((-0.001 + 0.003) / 2) "walk" 5000
          = "0.0_0.0_walk_5000") as Ke.
  { unfold get_graph_key, Py.repr_round2.
    rewrite (round_half_even_near 0 ((0 + 0) / 2 * 10 ^ 2)) by (simpl; lra).
    rewrite (round_half_even_near 0 ((-0.001 + 0.003) / 2 * 10 ^ 2))
      by (simpl; lra).
    destruct (Rlt_dec ((0 + 0) / 2) 0); [lra |].
    destruct (Rlt_dec ((-0.001 + 0.003) / 2) 0); [lra |].
    reflexivity. }
  assert (forall x y, y - x = 0.004 ->
            graph_radius (6371 * Py.radians (y - x)) = 5000%Z) as Hr.
  { intros x y ->. pose proof PI_bounds as [Hlo Hhi].
    rewrite graph_radius_floor by (unfold Py.radians; lra).
    rewrite (Zfloor_eq 667) by (unfold Py.radians; lra). reflexivity. }
  intros s1 s2. split; [exact Kw |]. split; [exact Ke |].
  subst s2 s1.
  rewrite (calculate_single_route_state Toy.routed Toy.east _
             (6371 * Py.radians (0.003 - -0.001)))
    by (apply haversine_distance_equator; lra).
  rewrite (calculate_single_route_state Toy.routed Toy.west _
             (6371 * Py.radians (0.001 - -0.003)))
    by (apply haversine_distance_equator; lra).
  rewrite !Hr by lra.
  unfold get_or_download_graph. simpl lat. simpl lng. simpl mode.
  rewrite Kw. simpl. rewrite Ke. reflexivity.
Qed.

(** C3 at a failing input.  Two midpoints at Greenwich, 0.002 degrees apart on
    either side of the meridian, same mode and radius: both longitudes round
    to the value 0, the keys differ in the sign of the zero, and the second
    request downloads a second graph. *)
Theorem cache_key_splits_zero_cell :
  Py.round (-0.001) 2 = Py.round 0.001 2
  /\ get_graph_key 51.48 (-0.001) "walk" 5000 = "51.48_-0.0_walk_5000"
  /\ get_graph_key 51.48 0.001 "walk" 5000 = "51.48_0.0_walk_5000"
  /\ exists s1 s2,
       get_or_download_graph Toy.routed 51.48 (-0.001) "walk" 5000 Toy.start
       = (Ok 0%nat, s1)
       /\ get_or_download_graph Toy.routed 51.48 0.001 "walk" 5000 s1
          = (Ok 1%nat, s2)
       /\ downloads s2
          = [(51.48, -0.001, 5000%Z, "walk"); (51.48, 0.001, 5000%Z, "walk")].
Proof.
  split; [rewrite !round_zero_cell by lra; reflexivity |].
  split; [exact get_graph_key_west |].
  split; [exact get_graph_key_east |].
  unfold get_or_download_graph.
  rewrite get_graph_key_west, get_graph_key_east.
  eexists; eexists.
  split; [reflexivity |]. split; reflexivity.
Qed.

(** ** The entry point in binary64 *)

Section Antipodal.
Import PrimFloat.
Context {Graph Node : Type}.
Variables (libm : Binary64.Libm) (ox : OSMnx Graph Node).

Lemma haversine_distance_antipodal :
  Binary64.glibc_at_antipodal libm ->
  Binary64.haversine_distance libm
    (Binary64.origin64 Binary64.antipodal)
    (Binary64.destination64 Binary64.antipodal)
  = Raise (Exn ValueError "math domain error").
Proof.
  intros (Hsin & Hsq & Hcos & Hcos' & Hsin' & Hsq').
  unfold Binary64.haversine_distance, Binary64.antipodal.
  cbn [Binary64.lat64 Binary64.lng64 Binary64.origin64
         Binary64.destination64].
  replace ((Binary64.radians 82 - Binary64.radians (-82)) / 2)%float
    with (Binary64.radians 82) by (vm_compute; reflexivity).
  replace ((Binary64.radians 0 - Binary64.radians (-180)) / 2)%float
    with (Binary64.pi / 2)%float by (vm_compute; reflexivity).
  rewrite Hsin, Hsq, Hcos, Hcos', Hsin', Hsq'.
  vm_compute. reflexivity.
Qed.

(** C1 at a failing input.  For the antipodal points (-82, -180) and (82, 0)
    the sum [a] is 1 + 2^-52 in binary64, [math.sqrt(1 - a)] raises
    [ValueError], in the [try] and again in the handler, and the exception
    leaves [calculate_single_route]. *)
Theorem antipodal_request_raises (s : ServiceState Graph) :
  Binary64.glibc_at_antipodal libm ->
  Binary64.calculate_single_route libm ox Binary64.antipodal s
  = (Raise (Exn ValueError "math domain error"), s).
Proof.
  intros Hlibm.
  unfold Binary64.calculate_single_route,
    Binary64.calculate_single_route_try, Binary64.fallback_response.
  rewrite (haversine_distance_antipodal Hlibm). reflexivity.
Qed.

End Antipodal.

Section AntipodalValues.
Import PrimFloat.

Lemma table_at_antipodal : Binary64.glibc_at_antipodal Binary64.table.
Proof. vm_compute. repeat split; reflexivity. Qed.

(** The sum [a] of the antipodal request, with glibc's values. *)
Example antipodal_a :
  (0x1.f6153f1af3dc1p-1 + 0x1.1d06c968d9e1ap-3 * 0x1.1d06c968d9e1ap-3 * 1
   = 0x1.0000000000001p+0)%float.
Proof. vm_compute. reflexivity. Qed.

End AntipodalValues.

(** A witness of [antipodal_request_raises]. *)
Lemma antipodal_request_raises_table :
  Binary64.calculate_single_route Binary64.table Toy.routed Binary64.antipodal
    Toy.start
  = (Raise (Exn ValueError "math domain error"), Toy.start).
Proof.
  exact (antipodal_request_raises Binary64.table Toy.routed Toy.start
           table_at_antipodal).
Defined.

(** * Further properties *)

(** ** More on the great-circle distance *)

Section HaversineMore.

Lemma haversine_distance_sym (o d : Coordinates) :
  haversine_distance o d = haversine_distance d o.
Proof.
  unfold haversine_distance.
  set (lat1 := Py.radians (lat o)). set (lat2 := Py.radians (lat d)).
  set (lng1 := Py.radians (lng o)). set (lng2 := Py.radians (lng d)).
  assert (forall x y, sin ((x - y) / 2) ^ 2 = sin ((y - x) / 2) ^ 2) as Hs.
  { intros x y. replace ((x - y) / 2) with (- ((y - x) / 2)) by field.
    rewrite sin_neg. ring. }
  rewrite (Hs lat2 lat1), (Hs lng2 lng1), (Rmult_comm (cos lat1) (cos lat2)).
  reflexivity.
Qed.

(** X1.  The distance from [o] to [d] is the distance from [d] to [o]. *)
Theorem haversine_distance_symmetric (o d : Coordinates) :
  haversine_distance o d = haversine_distance d o.
Proof. apply haversine_distance_sym. Qed.

(** X2.  A distance that [haversine_distance] returns lies between 0 and half
    the circumference of the sphere, 6371 * pi, which is less than
    20016 km. *)
Theorem haversine_distance_bounds (o d : Coordinates) (km : R) :
  haversine_distance o d = Ok km -> 0 <= km <= 6371 * PI /\ km < 20016.
Proof.
  intros Hkm.
  destruct (haversine_distance_total o d) as (km' & Hkm' & Hlo & Hhi).
  rewrite Hkm in Hkm'. injection Hkm' as <-.
  split; [split; assumption |].
  pose proof PI_bounds as [_ Hpi]. lra.
Qed.

Lemma haversine_distance_north (l x y : R) :
  0 <= y - x <= 180 ->
  haversine_distance {| lat := x; lng := l |} {| lat := y; lng := l |}
  = Ok (6371 * Py.radians (y - x)).
Proof.
  intros Hxy. unfold haversine_distance. simpl lat. simpl lng.
  pose proof PI_RGT_0 as HPI.
  set (t := Py.radians (y - x)).
  assert (Py.radians y - Py.radians x = t) as -> by (unfold t, Py.radians; ring).
  assert (0 <= t / 2 <= PI / 2) as Ht by (unfold t, Py.radians; nra).
  replace ((Py.radians l - Py.radians l) / 2) with 0 by field.
  rewrite sin_0.
  replace (sin (t / 2) ^ 2 + cos (Py.radians x) * cos (Py.radians y) * 0 ^ 2)
    with (Rsqr (sin (t / 2))) by (unfold Rsqr; ring).
  assert (0 <= sin (t / 2)) as Hsin by (apply sin_ge_0; lra).
  assert (0 <= cos (t / 2)) as Hcos by (apply cos_ge_0; lra).
  assert (1 - Rsqr (sin (t / 2)) = Rsqr (cos (t / 2))) as ->
      by (pose proof (sin2_cos2 (t / 2)); lra).
  unfold Py.sqrt.
  destruct (Rle_dec 0 (Rsqr (sin (t / 2)))) as [_ | Hn];
    [| pose proof (Rle_0_sqr (sin (t / 2))); lra].
  destruct (Rle_dec 0 (Rsqr (cos (t / 2)))) as [_ | Hn];
    [| pose proof (Rle_0_sqr (cos (t / 2))); lra].
  simpl. rewrite !sqrt_Rsqr by lra.
  destruct (Req_dec (t / 2) (PI / 2)) as [Hpole | Hnpole].
  - rewrite Hpole, sin_PI2, cos_PI2. unfold Py.atan2.
    destruct (Rlt_dec 0 0); [lra |]. destruct (Rlt_dec 0 1); [| lra].
    f_equal. lra.
  - assert (0 < cos (t / 2)) as Hpos by (apply cos_gt_0; lra).
    unfold Py.atan2. destruct (Rlt_dec 0 (cos (t / 2))); [| lra].
    change (sin (t / 2) / cos (t / 2)) with (tan (t / 2)).
    rewrite atan_tan by lra.
    f_equal. field.
Qed.

(** X3.  Two points on one meridian, latitudes in range: the distance is the
    arc between the latitudes, 6371 * radians(|lat2 - lat1|); from pole to
    pole it is 6371 * pi. *)
Theorem haversine_distance_meridian (l lat1 lat2 : R) :
  -90 <= lat1 <= 90 ->
  -90 <= lat2 <= 90 ->
  haversine_distance {| lat := lat1; lng := l |} {| lat := lat2; lng := l |}
  = Ok (6371 * Py.radians (Rabs (lat2 - lat1))).
Proof.
  intros H1 H2. unfold Rabs. destruct (Rcase_abs (lat2 - lat1)) as [Hneg | Hpos].
  - rewrite haversine_distance_sym, haversine_distance_north by lra.
    do 3 f_equal. ring.
  - apply haversine_distance_north. lra.
Qed.

End HaversineMore.

(** A witness of [haversine_distance_meridian]: from pole to pole. *)
Lemma haversine_distance_meridian_poles :
  haversine_distance {| lat := -90; lng := 0 |} {| lat := 90; lng := 0 |}
  = Ok (6371 * Py.radians (Rabs (90 - -90))).
Proof.
  apply (haversine_distance_meridian 0 (-90) 90); lra.
Defined.

(** ** The text of the cache key *)

Section KeyText.

Lemma occurs_app (c : ascii) (a b : string) :
  occurs c (a +:+ b) = occurs c a || occurs c b.
Proof.
  induction a as [| x a IH]; simpl; [reflexivity |].
  rewrite IH. apply orb_assoc.
Qed.

(** Cutting at the first [c]. *)
Lemma split_at_first (c : ascii) (a a' b b' : string) :
  occurs c a = false -> occurs c a' = false ->
  a +:+ String c b = a' +:+ String c b' -> a = a' /\ b = b'.
Proof.
  revert a'. induction a as [| x a IH]; intros [| x' a'] Ha Ha' E;
    simpl in *.
  - injection E as <-. auto.
  - injection E as <- _. rewrite Ascii.eqb_refl in Ha'. discriminate.
  - injection E as -> _. rewrite Ascii.eqb_refl in Ha. discriminate.
  - injection E as <- E.
    apply orb_false_elim in Ha as [_ Ha]. apply orb_false_elim in Ha' as [_ Ha'].
    destruct (IH a' Ha Ha' E) as [-> ->]. auto.
Qed.

(** Cutting at the last [c]. *)
Lemma split_at_last (c : ascii) (a a' b b' : string) :
  occurs c b = false -> occurs c b' = false ->
  a +:+ String c b = a' +:+ String c b' -> a = a' /\ b = b'.
Proof.
  intros Hb Hb'. revert a'.
  induction a as [| x a IH]; intros [| x' a'] E; simpl in *.
  - injection E as <-. auto.
  - injection E as <- ->.
    rewrite occurs_app in Hb. simpl in Hb. rewrite Ascii.eqb_refl in Hb.
    rewrite orb_true_r in Hb. discriminate.
  - injection E as -> <-.
    rewrite occurs_app in Hb'. simpl in Hb'. rewrite Ascii.eqb_refl in Hb'.
    rewrite orb_true_r in Hb'. discriminate.
  - injection E as <- E. destruct (IH a' E) as [-> ->]. auto.
Qed.

Lemma occurs_uint (c : ascii) (d : Decimal.uint) :
  digit c = false -> occurs c (NilEmpty.string_of_uint d) = false.
Proof.
  unfold digit. simpl. intros Hc.
  repeat (apply orb_false_elim in Hc as [? Hc]).
  induction d; simpl; rewrite ?IHd; try reflexivity;
    rewrite orb_false_r; assumption.
Qed.

Lemma occurs_str_int (c : ascii) (n : Z) :
  digit c = false -> c <> "-"%char -> occurs c (Py.str_int n) = false.
Proof.
  intros Hd Hm. unfold Py.str_int, NilZero.string_of_int, NilZero.string_of_uint.
  assert (Ascii.eqb c "-" = false) as Hm' by (apply Ascii.eqb_neq, Hm).
  destruct (Z.to_int n) as [d | d]; destruct d; simpl;
    rewrite ?Hm'; simpl; rewrite ?(occurs_uint c _ Hd), ?orb_false_r;
    try reflexivity;
    unfold digit in Hd; simpl in Hd;
    repeat (apply orb_false_elim in Hd as [? Hd]); assumption.
Qed.

Lemma str_int_inj (n m : Z) : Py.str_int n = Py.str_int m -> n = m.
Proof.
  unfold Py.str_int. intros E.
  apply DecimalZ.to_int_inj.
  assert (forall z, Z.to_int z <> Decimal.Pos Decimal.Nil
                    /\ Z.to_int z <> Decimal.Neg Decimal.Nil) as Hnn.
  { intros [| p | p]; simpl; split; try discriminate;
      intros [= H]; apply (DecimalPos.Unsigned.to_uint_nonnil p H). }
  destruct (Hnn n) as [Hn1 Hn2]. destruct (Hnn m) as [Hm1 Hm2].
  apply (f_equal NilZero.int_of_string) in E.
  rewrite !NilZero.isi in E by assumption.
  injection E as E. exact E.
Qed.

End KeyText.

Section KeyInjective.

Lemma str_int_head (n : Z) :
  (0 <= n)%Z ->
  exists a rest, Py.str_int n = String a rest /\ digit a = true.
Proof.
  intros Hn. unfold Py.str_int.
  destruct n as [| p | p]; [| | lia].
  - exists "0"%char, EmptyString. split; reflexivity.
  - simpl. pose proof (DecimalPos.Unsigned.to_uint_nonnil p) as Hnil.
    destruct (Pos.to_uint p); [congruence | ..]; simpl;
      eexists; eexists; split; reflexivity.
Qed.

Lemma occurs_repr_frac (c : ascii) (f : Z) :
  digit c = false -> c <> "-"%char -> occurs c (Py.repr_frac f) = false.
Proof.
  intros Hd Hm. unfold Py.repr_frac.
  destruct (f mod 10 =? 0)%Z; rewrite ?occurs_app, !occurs_str_int by assumption;
    reflexivity.
Qed.

Lemma occurs_repr_round2 (x : R) : occurs "_" (Py.repr_round2 x) = false.
Proof.
  unfold Py.repr_round2.
  rewrite !occurs_app, occurs_str_int, occurs_repr_frac
    by (reflexivity || discriminate).
  destruct (Rlt_dec x 0); reflexivity.
Qed.

Lemma repr_frac_inj (f f' : Z) :
  (0 <= f < 100)%Z -> (0 <= f' < 100)%Z ->
  Py.repr_frac f = Py.repr_frac f' -> f = f'.
Proof.
  intros Hf Hf' E.
  assert (forallb
            (fun a => forallb
               (fun b => implb (String.eqb (Py.repr_frac a) (Py.repr_frac b))
                           (a =? b)%Z)
               (map Z.of_nat (seq 0 100)))
            (map Z.of_nat (seq 0 100)) = true) as Hall
      by (vm_compute; reflexivity).
  assert (forall z, (0 <= z < 100)%Z -> In z (map Z.of_nat (seq 0 100))) as Hin.
  { intros z Hz. apply in_map_iff. exists (Z.to_nat z).
    split; [lia | apply in_seq; lia]. }
  rewrite forallb_forall in Hall. specialize (Hall f (Hin f Hf)).
  rewrite forallb_forall in Hall. specialize (Hall f' (Hin f' Hf')).
  rewrite E, String.eqb_refl in Hall. simpl in Hall.
  apply Z.eqb_eq, Hall.
Qed.

(** The text of a rounded coordinate tells its sign and its hundredths. *)
Lemma repr_round2_inj (x y : R) :
  Py.repr_round2 x = Py.repr_round2 y ->
  Py.round_half_even (x * 10 ^ 2) = Py.round_half_even (y * 10 ^ 2)
  /\ (x < 0 <-> y < 0).
Proof.
  unfold Py.repr_round2.
  set (qx := Py.round_half_even (x * 10 ^ 2)).
  set (qy := Py.round_half_even (y * 10 ^ 2)).
  assert (forall z, z < 0 -> (Py.round_half_even (z * 10 ^ 2) <= 0)%Z) as Hneg.
  { intros z Hz. pose proof (round_half_even_bounds (z * 10 ^ 2)) as [_ Hub].
    assert (IZR (Py.round_half_even (z * 10 ^ 2)) < 1) as Hlt
        by (simpl in *; lra).
    apply lt_IZR in Hlt. lia. }
  assert (forall z, ~ z < 0 -> (0 <= Py.round_half_even (z * 10 ^ 2))%Z) as Hpos.
  { intros z Hz. apply round_half_even_nonneg. simpl. lra. }
  assert (forall q q' : Z,
            Py.str_int (Z.abs q / 100) +:+ "." +:+ Py.repr_frac (Z.abs q mod 100)
            = Py.str_int (Z.abs q' / 100) +:+ "." +:+ Py.repr_frac (Z.abs q' mod 100) ->
            Z.abs q = Z.abs q') as Habs.
  { intros q q' E. simpl in E.
    apply split_at_first in E as [Ei Ef];
      [| apply occurs_str_int; (reflexivity || discriminate) ..].
    apply str_int_inj in Ei.
    apply repr_frac_inj in Ef; [| apply Z.mod_pos_bound; lia ..].
    rewrite (Z.div_mod (Z.abs q) 100), (Z.div_mod (Z.abs q') 100) by lia.
    congruence. }
  assert (forall q q' : Z,
            "-" +:+ Py.str_int (Z.abs q / 100) +:+ "." +:+ Py.repr_frac (Z.abs q mod 100)
            <> "" +:+ Py.str_int (Z.abs q' / 100) +:+ "." +:+ Py.repr_frac (Z.abs q' mod 100))
    as Hmix.
  { intros q q' E. simpl in E.
    destruct (str_int_head (Z.abs q' / 100)) as (a & rest & Hs & Ha);
      [apply Z.div_pos; lia |].
    rewrite Hs in E. simpl in E. injection E as <- _. discriminate Ha. }
  destruct (Rlt_dec x 0) as [Hx | Hx], (Rlt_dec y 0) as [Hy | Hy]; intros E.
  - injection E as E. apply Habs in E.
    pose proof (Hneg x Hx) as Nx. pose proof (Hneg y Hy) as Ny.
    fold qx in Nx. fold qy in Ny.
    split; [lia | tauto].
  - exfalso. exact (Hmix _ _ E).
  - exfalso. symmetry in E. exact (Hmix _ _ E).
  - apply Habs in E.
    pose proof (Hpos x Hx) as Px. pose proof (Hpos y Hy) as Py'.
    fold qx in Px. fold qy in Py'.
    split; [lia | tauto].
Qed.

(** X4.  The key tells the cell, the mode and the radius: two calls with
    the same key have midpoints that round to the same two decimals, the same
    mode text (underscores in it included) and the same radius. *)
Theorem get_graph_key_injective (lat lng lat' lng' : R) (mode mode' : string)
    (dist dist' : Z) :
  get_graph_key lat lng mode dist = get_graph_key lat' lng' mode' dist' ->
  Py.round lat 2 = Py.round lat' 2
  /\ Py.round lng 2 = Py.round lng' 2
  /\ mode = mode'
  /\ dist = dist'.
Proof.
  unfold get_graph_key. intros E. simpl in E.
  apply split_at_first in E as [Elat E]; [| apply occurs_repr_round2 ..].
  apply split_at_first in E as [Elng E]; [| apply occurs_repr_round2 ..].
  apply split_at_last in E as [Emode Edist];
    [| apply occurs_str_int; (reflexivity || discriminate) ..].
  apply repr_round2_inj in Elat as [Elat _].
  apply repr_round2_inj in Elng as [Elng _].
  apply str_int_inj in Edist.
  unfold Py.round. rewrite Elat, Elng. auto.
Qed.

End KeyInjective.

(** A witness of [get_graph_key_injective]: two midpoints of one cell. *)
Lemma get_graph_key_injective_cell :
  Py.round 51.481 2 = Py.round 51.48 2
  /\ Py.round 0.001 2 = Py.round 0.002 2
  /\ "walk" = "walk"
  /\ 5000%Z = 5000%Z.
Proof.
  apply (get_graph_key_injective 51.481 0.001 51.48 0.002 "walk" "walk"
           5000 5000).
  apply get_graph_key_same_rounding.
  - rewrite (round_half_even_near 5148 (51.481 * 10 ^ 2)) by (simpl; lra).
    rewrite (round_half_even_near 5148 (51.48 * 10 ^ 2)) by (simpl; lra).
    reflexivity.
  - rewrite (round_half_even_near 0 (0.001 * 10 ^ 2)) by (simpl; lra).
    rewrite (round_half_even_near 0 (0.002 * 10 ^ 2)) by (simpl; lra).
    reflexivity.
  - lra.
  - lra.
Defined.

(** ** More on the fast tier *)

Section TTLCacheMore.
Context {V : Type}.
Implicit Types (c : list (string * V)) (key : string) (v : V).

Lemma ttl_remove_length key c :
  (length (ttl_remove key c) <= length c)%nat.
Proof. unfold ttl_remove. apply filter_length_le. Qed.

Lemma ttl_remove_length_lt key c :
  ttl_contains key c = true ->
  (length (ttl_remove key c) < length c)%nat.
Proof.
  unfold ttl_contains, ttl_remove.
  induction c as [| [k v] c IH]; simpl; [discriminate |].
  destruct (String.eqb key k); simpl.
  - intros _. pose proof (filter_length_le
      (fun kv : string * V => negb (String.eqb key (fst kv))) c). lia.
  - intros Hc. specialize (IH Hc). lia.
Qed.

Lemma ttl_setitem_length key v c :
  (length c <= maxsize)%nat ->
  (length (ttl_setitem key v c) <= maxsize)%nat.
Proof.
  intros Hc. unfold ttl_setitem.
  destruct (ttl_contains key c) eqn:Hk; rewrite length_app; simpl.
  - pose proof (ttl_remove_length_lt key c Hk). lia.
  - rewrite length_skipn. unfold maxsize in *. lia.
Qed.

Lemma ttl_getitem_length key c v c' :
  ttl_getitem key c = Ok (v, c') -> (length c' <= length c)%nat.
Proof.
  unfold ttl_getitem.
  destruct (ttl_lookup key c) as [v0 |] eqn:Hl; [| discriminate].
  intros [= <- <-]. rewrite length_app. simpl.
  assert (ttl_contains key c = true) as Hk.
  { unfold ttl_lookup in Hl. unfold ttl_contains.
    destruct (List.find _ c) as [kv |] eqn:Hf; [| discriminate].
    apply find_some in Hf as [Hin Hkv].
    apply existsb_exists. exists kv. auto. }
  pose proof (ttl_remove_length_lt key c Hk). lia.
Qed.

Lemma ttl_contains_last key v c : ttl_contains key (c ++ [(key, v)]) = true.
Proof.
  unfold ttl_contains. rewrite existsb_app. simpl.
  rewrite String.eqb_refl. apply orb_true_iff. right. reflexivity.
Qed.

Lemma ttl_contains_setitem key v c :
  ttl_contains key (ttl_setitem key v c) = true.
Proof.
  unfold ttl_setitem. destruct (ttl_contains key c); apply ttl_contains_last.
Qed.

Lemma ttl_expire_length (dead : string -> bool) c :
  (length (ttl_expire dead c) <= length c)%nat.
Proof. unfold ttl_expire. apply filter_length_le. Qed.

End TTLCacheMore.

(** ** What the handlers keep *)

Section Invariants.
Context {Graph Node : Type}.
Variable ox : OSMnx Graph Node.

Lemma kept_by_single_route (P : ServiceState Graph -> Prop) :
  kept_by_cache ox P ->
  forall request s, P s -> P (snd (calculate_single_route ox request s)).
Proof.
  intros HP request s Hs.
  destruct (haversine_distance_total (origin request) (destination request))
    as (km & Hkm & _).
  rewrite (calculate_single_route_state ox request s km Hkm).
  apply HP, Hs.
Qed.

Lemma kept_by_batch_loop (P : ServiceState Graph -> Prop) :
  kept_by_cache ox P ->
  forall todo results td tt s,
    P s -> P (snd (batch_loop ox todo results td tt s)).
Proof.
  intros HP todo. induction todo as [| request todo IH];
    intros results td tt s Hs; simpl; [exact Hs |].
  pose proof (kept_by_single_route P HP request s Hs) as H1.
  destruct (calculate_single_route ox request s) as [[r | e] s1]; simpl in *;
    [| exact H1].
  destruct (success r); apply IH, H1.
Qed.

Lemma kept_by_batch (P : ServiceState Graph -> Prop) :
  kept_by_cache ox P ->
  forall request s, P s -> P (snd (calculate_batch_routes ox request s)).
Proof.
  intros HP request s Hs. unfold calculate_batch_routes.
  pose proof (kept_by_batch_loop P HP (routes request) [] 0 0 s Hs) as H.
  destruct (batch_loop ox (routes request) [] 0 0 s) as [[[[rs td] tt] | e] s'];
    exact H.
Qed.

Lemma kept_by_preload (P : ServiceState Graph -> Prop) :
  kept_by_cache ox P ->
  forall lat lng mode radius s,
    P s -> P (snd (preload_graph ox lat lng mode radius s)).
Proof.
  intros HP lat0 lng0 mode0 radius0 s Hs. unfold preload_graph.
  pose proof (HP lat0 lng0 mode0 radius0 s Hs) as H.
  destruct (get_or_download_graph ox lat0 lng0 mode0 radius0 s)
    as [[G | e] s']; exact H.
Qed.

Lemma bounded_kept :
  kept_by_cache ox (fun s => (length (graph_cache s) <= maxsize)%nat).
Proof.
  intros lat0 lng0 mode0 dist0 s Hs. unfold get_or_download_graph.
  destruct (ttl_contains _ _).
  - destruct (ttl_getitem _ _) as [[G c] | e] eqn:Hg; simpl; [| exact Hs].
    pose proof (ttl_getitem_length _ _ _ _ Hg). lia.
  - destruct (disk_cache s !! _); simpl; [apply ttl_setitem_length, Hs |].
    destruct (download_graph _ _ _ _ _ _); simpl;
      [apply ttl_setitem_length, Hs | exact Hs].
Qed.

Lemma coherent_kept : kept_by_cache ox coherent.
Proof.
  intros lat0 lng0 mode0 dist0 s Hs.
  destruct (get_or_download_graph ox lat0 lng0 mode0 dist0 s)
    as [[G | e] s'] eqn:Hget; simpl.
  - apply (get_or_download_graph_stores ox _ _ _ _ _ _ _ Hs Hget).
  - destruct (get_or_download_graph_raise ox _ _ _ _ _ _ _ Hget) as [Hf Hd].
    intros k G Hk. rewrite Hf in Hk. rewrite Hd. apply Hs, Hk.
Qed.

Lemma durable_kept (s0 : ServiceState Graph) :
  kept_by_cache ox (fun s => disk_cache s0 ⊆ disk_cache s).
Proof.
  intros lat0 lng0 mode0 dist0 s Hs. unfold get_or_download_graph.
  destruct (ttl_contains _ _).
  - destruct (ttl_getitem _ _) as [[G c] | e]; exact Hs.
  - destruct (disk_cache s !! _) eqn:Hd; simpl; [exact Hs |].
    destruct (download_graph _ _ _ _ _ _); simpl; [| exact Hs].
    etransitivity; [exact Hs |]. apply insert_subseteq, Hd.
Qed.

(** X5.  The fast tier never holds more than 50 graphs: from a state with at
    most 50, every handler and every expiry leaves at most 50, and that is
    the most the health check reports. *)
Theorem fast_tier_bounded (s : ServiceState Graph) :
  (length (graph_cache s) <= 50)%nat ->
  (forall request,
     (length (graph_cache (snd (calculate_single_route ox request s))) <= 50)%nat)
  /\ (forall request,
        (length (graph_cache (snd (calculate_batch_routes ox request s))) <= 50)%nat)
  /\ (forall lat lng mode radius,
        (length (graph_cache (snd (preload_graph ox lat lng mode radius s)))
         <= 50)%nat)
  /\ (forall dead, (length (graph_cache (tick dead s)) <= 50)%nat)
  /\ (forall version, (cache_size (health_check version s) <= 50)%nat).
Proof.
  intros Hs. repeat split.
  - intros request. apply (kept_by_single_route _ bounded_kept), Hs.
  - intros request. apply (kept_by_batch _ bounded_kept), Hs.
  - intros. apply (kept_by_preload _ bounded_kept), Hs.
  - intros dead. simpl. pose proof (ttl_expire_length dead (graph_cache s)).
    unfold maxsize in *. lia.
  - intros version. exact Hs.
Qed.

(** X6.  Every graph in the fast tier is in the durable tier under the same
    key: the handlers and the expiry keep it so. *)
Theorem tiers_coherent (s : ServiceState Graph) :
  coherent s ->
  (forall request, coherent (snd (calculate_single_route ox request s)))
  /\ (forall request, coherent (snd (calculate_batch_routes ox request s)))
  /\ (forall lat lng mode radius,
        coherent (snd (preload_graph ox lat lng mode radius s)))
  /\ (forall dead, coherent (tick dead s)).
Proof.
  intros Hs. repeat split.
  - intros request. apply (kept_by_single_route _ coherent_kept), Hs.
  - intros request. apply (kept_by_batch _ coherent_kept), Hs.
  - intros. apply (kept_by_preload _ coherent_kept), Hs.
  - intros dead. apply coherent_tick, Hs.
Qed.

(** X7.  The durable tier only grows: whatever a handler does, every key
    that was on disk is still there with the same graph. *)
Theorem durable_tier_grows (s : ServiceState Graph) (key : string)
    (G : Graph) :
  disk_cache s !! key = Some G ->
  (forall request,
     disk_cache (snd (calculate_single_route ox request s)) !! key = Some G)
  /\ (forall request,
        disk_cache (snd (calculate_batch_routes ox request s)) !! key = Some G)
  /\ (forall lat lng mode radius,
        disk_cache (snd (preload_graph ox lat lng mode radius s)) !! key
        = Some G).
Proof.
  intros Hk.
  assert (forall s', disk_cache s ⊆ disk_cache s' ->
                     disk_cache s' !! key = Some G) as Hsub
      by (intros s' H; eapply lookup_weaken; eassumption).
  repeat split; intros; apply Hsub.
  - apply (kept_by_single_route _ (durable_kept s)). reflexivity.
  - apply (kept_by_batch _ (durable_kept s)). reflexivity.
  - apply (kept_by_preload _ (durable_kept s)). reflexivity.
Qed.

End Invariants.

(** ** Hits, warm-ups and repeats *)

Section Reuse.
Context {Graph Node : Type}.
Variable ox : OSMnx Graph Node.

(** X8.  A graph on disk is served from the cache: the call returns it, the
    provider is not asked, the durable tier is as it was, and the key is in
    the fast tier afterwards. *)
Theorem served_from_cache (lat lng : R) (mode : string) (dist : Z)
    (s : ServiceState Graph) (G : Graph) :
  coherent s ->
  disk_cache s !! get_graph_key lat lng mode dist = Some G ->
  exists s',
    get_or_download_graph ox lat lng mode dist s = (Ok G, s')
    /\ downloads s' = downloads s
    /\ disk_cache s' = disk_cache s
    /\ ttl_contains (get_graph_key lat lng mode dist) (graph_cache s') = true.
Proof.
  intros Hco Hdisk. unfold get_or_download_graph.
  set (key := get_graph_key lat lng mode dist) in *.
  destruct (ttl_contains key (graph_cache s)) eqn:Hfast.
  - destruct (ttl_contains_lookup _ _ Hfast) as (v & Hv & Hin).
    apply Hco in Hin. assert (v = G) as -> by congruence.
    unfold ttl_getitem. rewrite Hv.
    eexists. split; [reflexivity |]. simpl.
    repeat split. apply ttl_contains_last.
  - rewrite Hdisk. eexists. split; [reflexivity |]. simpl.
    repeat split. apply ttl_contains_setitem.
Qed.

(** The answer of the entry point is decided by what the cache hands out. *)
Lemma calculate_single_route_by_graph (request : RouteRequest)
    (s s' : ServiceState Graph) (km : R) (r : result Graph)
    (t t' : ServiceState Graph) :
  haversine_distance (origin request) (destination request) = Ok km ->
  get_or_download_graph ox
    ((lat (origin request) + lat (destination request)) / 2)
    ((lng (origin request) + lng (destination request)) / 2)
    (mode request) (graph_radius km) s = (r, t) ->
  get_or_download_graph ox
    ((lat (origin request) + lat (destination request)) / 2)
    ((lng (origin request) + lng (destination request)) / 2)
    (mode request) (graph_radius km) s' = (r, t') ->
  fst (calculate_single_route ox request s)
  = fst (calculate_single_route ox request s').
Proof.
  intros Hkm H1 H2.
  unfold calculate_single_route, calculate_single_route_try.
  rewrite Hkm, H1, H2.
  unfold fallback_response. rewrite Hkm.
  destruct r as [G | e]; [| reflexivity].
  destruct (negb _); reflexivity.
Qed.

(** X9.  Asking again: once the cache has handed out a graph for a request,
    the same request gets the same answer, without a download, whichever
    fast-tier entries expired in between. *)
Theorem same_request_same_answer (request : RouteRequest)
    (s : ServiceState Graph) (km : R) (G : Graph) (s1 : ServiceState Graph)
    (dead : string -> bool) :
  coherent s ->
  haversine_distance (origin request) (destination request) = Ok km ->
  get_or_download_graph ox
    ((lat (origin request) + lat (destination request)) / 2)
    ((lng (origin request) + lng (destination request)) / 2)
    (mode request) (graph_radius km) s = (Ok G, s1) ->
  snd (calculate_single_route ox request s) = s1
  /\ fst (calculate_single_route ox request (tick dead s1))
     = fst (calculate_single_route ox request s)
  /\ downloads (snd (calculate_single_route ox request (tick dead s1)))
     = downloads s1.
Proof.
  intros Hco Hkm Hget.
  destruct (get_or_download_graph_reuse ox _ _ _ _ _ _ _ _ _ _ G dead
              Hco Hget eq_refl) as (s2 & Hget2 & Hlog).
  split; [rewrite (calculate_single_route_state ox request s km Hkm), Hget;
          reflexivity |].
  split.
  - eapply calculate_single_route_by_graph; eassumption.
  - rewrite (calculate_single_route_state ox request _ km Hkm), Hget2.
    exact Hlog.
Qed.

(** X10.  Warming up: after a preload that succeeded, a route request whose
    midpoint, mode and radius give the key of the preload is answered without
    a download. *)
Theorem preload_then_route (plat plng : R) (pmode : string) (radius : Z)
    (s s1 : ServiceState Graph) (p : PreloadResponse)
    (request : RouteRequest) (km : R) (dead : string -> bool) :
  coherent s ->
  preload_graph ox plat plng pmode radius s = (Ok p, s1) ->
  haversine_distance (origin request) (destination request) = Ok km ->
  get_graph_key
    ((lat (origin request) + lat (destination request)) / 2)
    ((lng (origin request) + lng (destination request)) / 2)
    (mode request) (graph_radius km)
  = get_graph_key plat plng pmode radius ->
  downloads (snd (calculate_single_route ox request (tick dead s1)))
  = downloads s1.
Proof.
  intros Hco Hpre Hkm Hkey.
  unfold preload_graph in Hpre.
  destruct (get_or_download_graph ox plat plng pmode radius s)
    as [[G | e] s'] eqn:Hget; [| discriminate].
  injection Hpre as _ <-.
  destruct (get_or_download_graph_reuse ox _ _ _ _ _ _ _ _ _ _ G dead
              Hco Hget Hkey) as (s2 & Hget2 & Hlog).
  rewrite (calculate_single_route_state ox request _ km Hkm), Hget2.
  exact Hlog.
Qed.

End Reuse.

(** ** The preload endpoint and the cost of a batch *)

Section Preload.
Context {Graph Node : Type}.
Variable ox : OSMnx Graph Node.

(** X11.  A preload either reports the node and edge counts of a graph that
    is then in both tiers under the key of the call, echoing mode and radius,
    or it raises an HTTP exception that carries the text of the failure and
    leaves both tiers as they were. *)
Theorem preload_outcome (plat plng : R) (pmode : string) (pradius : Z)
    (s : ServiceState Graph) :
  coherent s ->
  let key := get_graph_key plat plng pmode pradius in
  (exists G s',
     preload_graph ox plat plng pmode pradius s
     = (Ok {| status := "success"; nodes := number_of_nodes ox G;
              edges := number_of_edges ox G; preload_mode := pmode;
              radius := pradius |}, s')
     /\ disk_cache s' !! key = Some G
     /\ ttl_contains key (graph_cache s') = true)
  \/ (exists e s',
        preload_graph ox plat plng pmode pradius s
        = (Raise (Exn HTTPException (exn_str e)), s')
        /\ get_or_download_graph ox plat plng pmode pradius s = (Raise e, s')
        /\ graph_cache s' = graph_cache s
        /\ disk_cache s' = disk_cache s).
Proof.
  intros Hco key. unfold preload_graph.
  destruct (get_or_download_graph ox plat plng pmode pradius s)
    as [[G | e] s'] eqn:Hget.
  - left. exists G, s'. split; [reflexivity |].
    destruct (get_or_download_graph_stores ox _ _ _ _ _ _ _ Hco Hget)
      as [_ Hdisk].
    split; [exact Hdisk |].
    revert Hget. unfold get_or_download_graph. fold key.
    destruct (ttl_contains key (graph_cache s)) eqn:Hfast.
    + destruct (ttl_contains_lookup _ _ Hfast) as (v & Hv & _).
      unfold ttl_getitem. rewrite Hv. intros [= _ <-]. simpl.
      apply ttl_contains_last.
    + destruct (disk_cache s !! key).
      * intros [= _ <-]. apply ttl_contains_setitem.
      * destruct (download_graph _ _ _ _ _ _); [| discriminate].
        intros [= _ <-]. apply ttl_contains_setitem.
  - right. exists e, s'. split; [reflexivity |]. split; [reflexivity |].
    apply (get_or_download_graph_raise ox _ _ _ _ _ _ _ Hget).
Qed.

Lemma downloads_kept (s0 : ServiceState Graph) (n : nat) :
  forall lat lng mode dist s,
    (exists new, downloads s = downloads s0 ++ new /\ (length new <= n)%nat) ->
    exists new,
      downloads (snd (get_or_download_graph ox lat lng mode dist s))
      = downloads s0 ++ new /\ (length new <= S n)%nat.
Proof.
  intros lat0 lng0 mode0 dist0 s (new & Hnew & Hlen).
  destruct (get_or_download_graph_downloads ox lat0 lng0 mode0 dist0 s)
    as [H | H]; rewrite H, Hnew.
  - exists new. split; [reflexivity | lia].
  - exists (new ++ [(lat0, lng0, dist0, get_network_type mode0)]).
    rewrite app_assoc, length_app. simpl. split; [reflexivity | lia].
Qed.

Lemma batch_loop_downloads (todo : list RouteRequest) :
  forall results td tt (s0 s : ServiceState Graph) (n : nat),
    (exists new, downloads s = downloads s0 ++ new /\ (length new <= n)%nat) ->
    exists new,
      downloads (snd (batch_loop ox todo results td tt s))
      = downloads s0 ++ new /\ (length new <= n + length todo)%nat.
Proof.
  induction todo as [| request todo IH]; intros results td tt s0 s n Hs; simpl.
  - destruct Hs as (new & Hnew & Hlen). exists new. split; [exact Hnew | lia].
  - assert (exists new,
              downloads (snd (calculate_single_route ox request s))
              = downloads s0 ++ new /\ (length new <= S n)%nat) as H1.
    { destruct (haversine_distance_total (origin request) (destination request))
        as (km & Hkm & _).
      rewrite (calculate_single_route_state ox request s km Hkm).
      apply downloads_kept, Hs. }
    destruct (calculate_single_route ox request s) as [[r | e] s1]; simpl in *.
    + destruct (success r).
      * destruct (IH (results ++ [r]) (td + distance_km r)
                    (tt + duration_minutes r) s0 s1 (S n) H1)
          as (new & Hn & Hl).
        exists new. split; [exact Hn | lia].
      * destruct (IH (results ++ [r]) td tt s0 s1 (S n) H1)
          as (new & Hn & Hl).
        exists new. split; [exact Hn | lia].
    + destruct H1 as (new & Hn & Hl). exists new. split; [exact Hn | lia].
Qed.

(** X12.  A batch asks the provider at most once per request, and what was
    asked before stays at the front of the log. *)
Theorem batch_downloads_bound (request : BatchRouteRequest)
    (s : ServiceState Graph) :
  exists new,
    downloads (snd (calculate_batch_routes ox request s)) = downloads s ++ new
    /\ (length new <= length (routes request))%nat.
Proof.
  destruct (batch_loop_downloads (routes request) [] 0 0 s s 0)
    as (new & Hnew & Hlen).
  { exists []. rewrite app_nil_r. split; [reflexivity | simpl; lia]. }
  exists new. split; [| simpl in Hlen; exact Hlen].
  unfold calculate_batch_routes.
  destruct (batch_loop ox (routes request) [] 0 0 s)
    as [[[[rs td] tt] | e] s']; exact Hnew.
Qed.

(** X13.  When the provider fails on a miss, the route request is still
    answered: with the estimate from the great-circle distance, [success]
    set, the text of the failure after "Used fallback: ", and both tiers as
    they were. *)
Theorem provider_failure_falls_back (request : RouteRequest)
    (s : ServiceState Graph) (km : R) (e : exn) :
  haversine_distance (origin request) (destination request) = Ok km ->
  let key :=
    get_graph_key ((lat (origin request) + lat (destination request)) / 2)
      ((lng (origin request) + lng (destination request)) / 2)
      (mode request) (graph_radius km) in
  ttl_contains key (graph_cache s) = false ->
  disk_cache s !! key = None ->
  download_graph ox (downloads s)
    ((lat (origin request) + lat (destination request)) / 2)
    ((lng (origin request) + lng (destination request)) / 2)
    (graph_radius km) (get_network_type (mode request)) = Raise e ->
  exists s',
    calculate_single_route ox request s
    = (Ok (fallback_estimate km (mode request)
             ("Used fallback: " +:+ exn_str e)), s')
    /\ graph_cache s' = graph_cache s
    /\ disk_cache s' = disk_cache s.
Proof.
  intros Hkm key Hfast Hdisk Hbuild.
  unfold calculate_single_route, calculate_single_route_try, fallback_response.
  rewrite Hkm. unfold get_or_download_graph. fold key.
  rewrite Hfast, Hdisk, Hbuild.
  eexists. split; [reflexivity |]. split; reflexivity.
Qed.

End Preload.

(** ** The shape of an answer *)

Section Answers.
Context {Graph Node : Type}.
Variable ox : OSMnx Graph Node.

Lemma comprehension_Forall2 {A B : Type} (f : A -> result B) (l : list A)
    (ys : list B) :
  comprehension f l = Ok ys -> Forall2 (fun x y => f x = Ok y) l ys.
Proof.
  revert ys. induction l as [| x l IH]; intros ys; simpl.
  - intros [= <-]. constructor.
  - destruct (f x) as [y | e] eqn:Hx; simpl; [| discriminate].
    destruct (comprehension f l) as [ys' | e]; simpl; [| discriminate].
    intros [= <-]. constructor; [exact Hx | apply IH; reflexivity].
Qed.

(** X14.  An answer of [calculate_route] carries the mode it was asked for.
    Without [success] it has distance 0, duration 0, no path and an error
    text; with [success] it has no error text and a path with one
    [x, y] pair for each node of the route that the search returned, in the
    order of the route. *)
Theorem calculate_route_outcome (G : Graph) (o d : Coordinates) (m : string) :
  let r := calculate_route ox G o d m in
  mode_r r = m
  /\ (success r = false ->
      distance_km r = 0 /\ duration_minutes r = 0
      /\ path_coordinates r = None /\ error r <> None)
  /\ (success r = true ->
      error r = None
      /\ exists orig_node dest_node weight route coords,
           nearest_nodes ox G (lng o) (lat o) = Ok orig_node
           /\ nearest_nodes ox G (lng d) (lat d) = Ok dest_node
           /\ shortest_path ox G orig_node dest_node weight = Ok (Some route)
           /\ path_coordinates r = Some coords
           /\ Forall2
                (fun node pair =>
                   exists x y,
                     node_attr ox G node "x" = Ok x
                     /\ node_attr ox G node "y" = Ok y
                     /\ pair = [x; y])
                route coords).
Proof.
  intros r. subst r. unfold calculate_route.
  destruct (calculate_route_try ox G o d m) as [r | e] eqn:Htry.
  - unfold calculate_route_try, bind in Htry.
    repeat step_in Htry; injection Htry as <-; simpl.
    + split; [reflexivity |]. split; [discriminate |]. intros _.
      split; [reflexivity |].
      assert (exists weight,
                shortest_path ox G a a0 weight = Ok (Some l)) as [w Hw].
      { destruct (shortest_path ox G a a0 "travel_time") as [p | e] eqn:Ht.
        - injection E1 as ->. exists "travel_time". exact Ht.
        - destruct (is_class NetworkXNoPath e); [| discriminate].
          exists "length". exact E1. }
      exists a, a0, w, l, a4. repeat split; try assumption.
      apply comprehension_Forall2 in E5.
      eapply Forall2_impl; [exact E5 |].
      intros node pair Hp. simpl in Hp.
      destruct (node_attr ox G node "x") as [x | ?]; [| discriminate].
      destruct (node_attr ox G node "y") as [y | ?]; [| discriminate].
      injection Hp as <-. exists x, y. auto.
    + split; [reflexivity |]. split; [| discriminate].
      intros _. repeat split. discriminate.
  - simpl. split; [reflexivity |]. split; [| discriminate].
    intros _. repeat split. discriminate.
Qed.

(** An answer of the entry point carries the mode of the request. *)
Lemma calculate_single_route_mode (request : RouteRequest)
    (s s' : ServiceState Graph) (response : RouteResponse) :
  calculate_single_route ox request s = (Ok response, s') ->
  mode_r response = mode request.
Proof.
  intros Hrun.
  destruct (calculate_single_route_cases ox request s) as (km & _ & _ & Hcase).
  destruct (get_or_download_graph _ _ _ _ _ _) as [[G | e] s1].
  - cbv zeta in Hcase. rewrite Hcase in Hrun.
    destruct (success (calculate_route ox G _ _ _)) eqn:Hok;
      injection Hrun as <- <-; [| reflexivity].
    apply (calculate_route_success ox G _ _ _ Hok).
  - rewrite Hcase in Hrun. injection Hrun as <- <-. reflexivity.
Qed.

Lemma resolved_in_order_modes (s s' : ServiceState Graph)
    (requests : list RouteRequest) (responses : list RouteResponse) :
  resolved_in_order ox s requests responses s' ->
  Forall2 (fun request response =>
             mode_r response = mode request /\ success response = true)
    requests responses.
Proof.
  induction 1 as [| s0 request response s1 requests responses s2 Hrun _ IH];
    constructor; [| exact IH].
  split; [eapply calculate_single_route_mode; exact Hrun |].
  eapply calculate_single_route_sets_success; exact Hrun.
Qed.

(** X15.  In the answer of a batch that returned, the i-th route belongs to
    the i-th request: there are as many routes as requests, each carries the
    mode of its request and has [success] set, so both totals run over all
    the routes. *)
Theorem batch_routes_match_requests (request : BatchRouteRequest)
    (s s' : ServiceState Graph) (response : BatchRouteResponse) :
  calculate_batch_routes ox request s = (Ok response, s') ->
  Forall2 (fun req r => mode_r r = mode req /\ success r = true)
    (routes request) (routes_r response)
  /\ total_distance_km response
     = Py.round (Rsum (map distance_km (routes_r response))) 2
  /\ total_duration_minutes response
     = Py.round (Rsum (map duration_minutes (routes_r response))) 1.
Proof.
  destruct request as [requests]. simpl routes. intros Hrun.
  pose proof (batch_resolved ox _ _ _ _ Hrun) as Hrs.
  rewrite (batch_of_resolved ox _ _ _ _ Hrs) in Hrun.
  injection Hrun as <-. simpl.
  split; [apply (resolved_in_order_modes _ _ _ _ Hrs) |].
  rewrite (resolved_in_order_success ox _ _ _ _ Hrs).
  split; reflexivity.
Qed.

Lemma resolved_in_order_app (s s1 s2 : ServiceState Graph)
    (l1 l2 : list RouteRequest) (r1 r2 : list RouteResponse) :
  resolved_in_order ox s l1 r1 s1 ->
  resolved_in_order ox s1 l2 r2 s2 ->
  resolved_in_order ox s (l1 ++ l2) (r1 ++ r2) s2.
Proof.
  induction 1; simpl; [auto |].
  intros H2. econstructor; [eassumption | auto].
Qed.

Lemma resolved_in_order_split (l1 l2 : list RouteRequest) :
  forall (s s2 : ServiceState Graph) (r : list RouteResponse),
    resolved_in_order ox s (l1 ++ l2) r s2 ->
    exists r1 r2 s1,
      r = r1 ++ r2
      /\ resolved_in_order ox s l1 r1 s1
      /\ resolved_in_order ox s1 l2 r2 s2.
Proof.
  induction l1 as [| request l1 IH]; intros s s2 r H; simpl in H.
  - exists [], r, s. split; [reflexivity |]. split; [constructor | exact H].
  - inversion H as [| ? ? response s0 ? rs ? Hrun Hrest]; subst.
    destruct (IH _ _ _ Hrest) as (r1 & r2 & s1 & -> & H1 & H2).
    exists (response :: r1), r2, s1.
    split; [reflexivity |]. split; [econstructor; eassumption | exact H2].
Qed.

(** X16.  One batch or two: a batch of [l1] that returns, followed by a batch
    of [l2] that returns in the state the first one left, is a batch of
    [l1 ++ l2]: that one returns too, with the routes of the first followed
    by the routes of the second, and leaves the same state.  And a batch of
    [l1 ++ l2] that returns splits into the two in this way. *)
Theorem batch_of_append (l1 l2 : list RouteRequest) (s : ServiceState Graph) :
  (forall b1 b2 s1 s2,
     calculate_batch_routes ox {| routes := l1 |} s = (Ok b1, s1) ->
     calculate_batch_routes ox {| routes := l2 |} s1 = (Ok b2, s2) ->
     exists b,
       calculate_batch_routes ox {| routes := l1 ++ l2 |} s = (Ok b, s2)
       /\ routes_r b = routes_r b1 ++ routes_r b2)
  /\ (forall b s2,
        calculate_batch_routes ox {| routes := l1 ++ l2 |} s = (Ok b, s2) ->
        exists b1 b2 s1,
          calculate_batch_routes ox {| routes := l1 |} s = (Ok b1, s1)
          /\ calculate_batch_routes ox {| routes := l2 |} s1 = (Ok b2, s2)
          /\ routes_r b = routes_r b1 ++ routes_r b2).
Proof.
  split.
  - intros b1 b2 s1 s2 H1 H2.
    apply batch_resolved in H1, H2.
    pose proof (resolved_in_order_app _ _ _ _ _ _ _ H1 H2) as H.
    eexists. split; [exact (batch_of_resolved ox _ _ _ _ H) | reflexivity].
  - intros b s2 H.
    apply batch_resolved in H.
    destruct (resolved_in_order_split _ _ _ _ _ H)
      as (r1 & r2 & s1 & Hr & H1 & H2).
    do 3 eexists.
    split; [exact (batch_of_resolved ox _ _ _ _ H1) |].
    split; [exact (batch_of_resolved ox _ _ _ _ H2) | exact Hr].
Qed.

End Answers.

(** ** More on rounding, the radius and the estimate *)

Section Numbers.

Lemma round_error (x : R) (n : nat) :
  Rabs (Py.round x n - x) <= / (2 * 10 ^ n).
Proof.
  unfold Py.round. pose proof (pow10_pos n) as Hp.
  pose proof (round_half_even_bounds (x * 10 ^ n)) as [Hlo Hhi].
  set (q := IZR (Py.round_half_even (x * 10 ^ n))) in *.
  replace (q / 10 ^ n - x) with ((q - x * 10 ^ n) / 10 ^ n) by (field; lra).
  unfold Rdiv. rewrite Rabs_mult, (Rabs_pos_eq (/ 10 ^ n))
    by (apply Rlt_le, Rinv_0_lt_compat, Hp).
  rewrite Rinv_mult.
  apply Rmult_le_compat_r; [apply Rlt_le, Rinv_0_lt_compat, Hp |].
  apply Rabs_le. lra.
Qed.

Lemma round_half_even_le (x y : R) :
  x <= y -> (Py.round_half_even x <= Py.round_half_even y)%Z.
Proof.
  intros Hxy.
  destruct (Z_le_gt_dec (Py.round_half_even x) (Py.round_half_even y))
    as [Hle | Hgt]; [exact Hle | exfalso].
  pose proof (round_half_even_bounds x) as [_ Hx].
  pose proof (round_half_even_bounds y) as [Hy _].
  assert (IZR (Py.round_half_even y) + 1 <= IZR (Py.round_half_even x)) as H
      by (rewrite <- plus_IZR; apply IZR_le; lia).
  assert (x = y) as -> by lra. lia.
Qed.

Lemma round_le (x y : R) (n : nat) : x <= y -> Py.round x n <= Py.round y n.
Proof.
  intros Hxy. unfold Py.round. pose proof (pow10_pos n) as Hp.
  apply Rmult_le_compat_r; [apply Rlt_le, Rinv_0_lt_compat, Hp |].
  apply IZR_le, round_half_even_le.
  apply Rmult_le_compat_r; lra.
Qed.

Lemma int_le (x y : R) : x <= y -> (Py.int x <= Py.int y)%Z.
Proof.
  intros Hxy. unfold Py.int.
  destruct (Rle_dec 0 x), (Rle_dec 0 y); try lra.
  - apply Zfloor_le, Hxy.
  - assert (Zceil x <= 0)%Z
        by (apply Z.lt_succ_r, lt_IZR; pose proof (Zceil_bound x);
            rewrite succ_IZR; lra).
    assert (0 <= Zfloor y)%Z by (apply Zfloor_lub; simpl; lra).
    lia.
  - apply Zceil_le, Hxy.
Qed.

(** X17.  The radius grows with the distance and has two plateaus: 5000 for
    every distance below 5001/1500 km (3.334 km), 50000 from 100/3 km
    (33.34 km) on. *)
Theorem graph_radius_steps :
  (forall d1 d2, d1 <= d2 -> (graph_radius d1 <= graph_radius d2)%Z)
  /\ (forall d, d < 5001 / 1500 -> graph_radius d = 5000%Z)
  /\ (forall d, 100 / 3 <= d -> graph_radius d = 50000%Z).
Proof.
  split; [| split].
  - intros d1 d2 Hd. unfold graph_radius.
    assert (Py.int (d1 * 1500) <= Py.int (d2 * 1500))%Z
      by (apply int_le; lra).
    lia.
  - intros d Hd. unfold graph_radius.
    assert (Py.int (d * 1500) <= 5000)%Z; [| lia].
    apply Z.lt_succ_r, lt_IZR. rewrite succ_IZR.
    unfold Py.int. destruct (Rle_dec 0 (d * 1500)).
    + pose proof (Zfloor_bound (d * 1500)). lra.
    + pose proof (Zceil_bound (d * 1500)). lra.
  - intros d Hd. unfold graph_radius.
    assert (Py.int 50000 <= Py.int (d * 1500))%Z by (apply int_le; lra).
    assert (Py.int 50000 = 50000%Z) as E.
    { unfold Py.int. destruct (Rle_dec 0 50000); [| lra].
      apply ZfloorZ. }
    lia.
Qed.

(** X18.  The estimate of the fallback: the distance is 1.4 times the
    great-circle distance to within 0.005 km, the duration is that road
    distance at the speed of the mode to within 0.05 minutes; it carries the
    mode, has [success] set and no path. *)
Theorem fallback_estimate_accuracy (km : R) (m e : string) :
  let r := fallback_estimate km m e in
  Rabs (distance_km r - 1.4 * km) <= 0.005
  /\ Rabs (duration_minutes r - 1.4 * km / get_speed_kmh m * 60) <= 0.05
  /\ mode_r r = m /\ success r = true /\ path_coordinates r = None
  /\ error r = Some e.
Proof.
  intros r. subst r. unfold fallback_estimate. simpl.
  pose proof (round_error (km * 1.4) 2) as H2.
  pose proof (round_error (km * 1.4 / get_speed_kmh m * 60) 1) as H1.
  simpl in H1, H2.
  replace (1.4 * km) with (km * 1.4) by ring.
  repeat split; (eapply Rle_trans; [eassumption | lra]).
Qed.

(** X19.  For one distance the slower mode never gets the shorter estimate:
    the estimated duration on foot is at least that by bike, which is at
    least that by car. *)
Theorem fallback_estimate_by_mode (km : R) (e : string) :
  0 <= km ->
  duration_minutes (fallback_estimate km "drive" e)
  <= duration_minutes (fallback_estimate km "bike" e)
  /\ duration_minutes (fallback_estimate km "bike" e)
     <= duration_minutes (fallback_estimate km "walk" e).
Proof.
  intros Hkm. unfold fallback_estimate. simpl.
  change (get_speed_kmh "drive") with 40.
  change (get_speed_kmh "bike") with 15.
  change (get_speed_kmh "walk") with 5.
  split; apply round_le; lra.
Qed.

End Numbers.

(** ** Modes and validation *)

Section Validation.

Lemma check_Coordinates_range (c : Coordinates) :
  check_Coordinates c = true -> Coordinates_in_range c.
Proof.
  unfold check_Coordinates, Coordinates_in_range.
  repeat destruct (Rle_dec _ _); simpl; try discriminate. intros _. lra.
Qed.

Lemma get_network_type_literal (m : string) :
  m ∈ mode_literals -> get_network_type m = m.
Proof.
  unfold mode_literals. rewrite !elem_of_cons, elem_of_nil.
  intros [-> | [-> | [-> | []]]]; reflexivity.
Qed.

(** X20.  The two tables: the network type is always one of drive, walk and
    bike, it is the mode itself when the mode is one of them, and the speed
    is one of 40, 15 and 5 km/h, so never zero. *)
Theorem mode_tables (m : string) :
  get_network_type m ∈ mode_literals
  /\ (m ∈ mode_literals -> get_network_type m = m)
  /\ get_network_type (get_network_type m) = get_network_type m
  /\ (get_speed_kmh m = 40 \/ get_speed_kmh m = 15 \/ get_speed_kmh m = 5)
  /\ 5 <= get_speed_kmh m <= 40.
Proof.
  assert (get_network_type m ∈ mode_literals) as Hin.
  { destruct (decide (m ∈ mode_literals)) as [Hm | Hm].
    - rewrite (get_network_type_literal m Hm). exact Hm.
    - rewrite (get_network_type_unknown m Hm). unfold mode_literals.
      apply elem_of_cons. auto. }
  split; [exact Hin |]. split; [apply get_network_type_literal |].
  split; [apply get_network_type_literal, Hin |].
  destruct (get_speed_kmh_cases m) as [[_ ->] | [[_ ->] | [[_ ->] | [_ ->]]]];
    split; auto; lra.
Qed.

(** X21.  Validation of a route request: a body is accepted exactly when both
    points are in range and the mode is absent or one of drive, walk and
    bike; the request that reaches the handler has the points of the body,
    the mode of the body or "drive" for an absent one, and a mode that is its
    own network type. *)
Theorem validate_RouteRequest_spec (b : RouteRequestBody) :
  (forall r,
     validate_RouteRequest b = Ok r ->
     origin r = body_origin b /\ destination r = body_destination b
     /\ mode r = default "drive" (body_mode b)
     /\ Coordinates_in_range (origin r)
     /\ Coordinates_in_range (destination r)
     /\ mode r ∈ mode_literals
     /\ get_network_type (mode r) = mode r)
  /\ ((exists r, validate_RouteRequest b = Ok r)
      <-> Coordinates_in_range (body_origin b)
          /\ Coordinates_in_range (body_destination b)
          /\ default "drive" (body_mode b) ∈ mode_literals).
Proof.
  assert ("drive" ∈ mode_literals) as Hdrive
      by (unfold mode_literals; apply elem_of_cons; auto).
  unfold validate_RouteRequest.
  destruct (check_Coordinates (body_origin b)) eqn:Ho;
    destruct (check_Coordinates (body_destination b)) eqn:Hd; simpl.
  - apply check_Coordinates_range in Ho. apply check_Coordinates_range in Hd.
    destruct (body_mode b) as [m |]; simpl.
    + destruct (bool_decide (m ∈ mode_literals)) eqn:Hm.
      * apply bool_decide_eq_true in Hm. split.
        -- intros r [= <-]. simpl.
           repeat split; try assumption; try apply Ho; try apply Hd.
           apply get_network_type_literal, Hm.
        -- split; [intros _; repeat split; try assumption; apply Ho || apply Hd
                  | intros _; eexists; reflexivity].
      * apply bool_decide_eq_false in Hm. split; [discriminate |].
        split; [intros [r [=]] | intros (_ & _ & H); contradiction].
    + split.
      * intros r [= <-]. simpl.
        repeat split; try assumption; try apply Ho; try apply Hd.
      * split; [intros _; repeat split; try assumption; apply Ho || apply Hd
                | intros _; eexists; reflexivity].
  - split; [discriminate |].
    split; [intros [r [=]] | intros (_ & H & _)].
    apply check_Coordinates_true in H. congruence.
  - split; [discriminate |].
    split; [intros [r [=]] | intros (H & _ & _)].
    apply check_Coordinates_true in H. congruence.
  - split; [discriminate |].
    split; [intros [r [=]] | intros (H & _ & _)].
    apply check_Coordinates_true in H. congruence.
Qed.

End Validation.

(** ** Runs in the small world *)

(** The same request once more: it is served from the cache. *)
Lemma equator_rerun :
  calculate_single_route Toy.routed Toy.equator Toy.after_equator
  = (Ok Toy.equator_route, Toy.after_equator).
Proof.
  pose proof (calculate_single_route_at Toy.routed Toy.equator
                Toy.after_equator Toy.equator_km equator_distance) as H.
  unfold get_or_download_graph in H. simpl graph_cache in H.
  change (get_graph_key _ _ _ _) with Toy.equator_key in H.
  unfold ttl_contains, ttl_getitem, ttl_lookup, ttl_remove in H. simpl in H.
  rewrite String.eqb_refl in H. simpl in H.
  exact H.
Qed.

Lemma equator_batch_rerun :
  calculate_batch_routes Toy.routed {| routes := [Toy.equator] |}
    Toy.after_equator
  = (Ok {| routes_r := [Toy.equator_route];
           total_distance_km := Py.round (0 + Py.round (2000 / 1000) 2) 2;
           total_duration_minutes := Py.round (0 + Py.round (180 / 60) 1) 1 |},
     Toy.after_equator).
Proof.
  unfold calculate_batch_routes. simpl. rewrite equator_rerun. reflexivity.
Qed.

(** A witness of [batch_routes_match_requests]: the batch of the one request
    along the equator. *)
Lemma batch_routes_match_requests_equator :
  let response :=
    {| routes_r := [Toy.equator_route];
       total_distance_km := Py.round (0 + Py.round (2000 / 1000) 2) 2;
       total_duration_minutes := Py.round (0 + Py.round (180 / 60) 1) 1 |} in
  Forall2 (fun req r => mode_r r = mode req /\ success r = true)
    [Toy.equator] (routes_r response)
  /\ total_distance_km response
     = Py.round (Rsum (map distance_km (routes_r response))) 2
  /\ total_duration_minutes response
     = Py.round (Rsum (map duration_minutes (routes_r response))) 1.
Proof.
  exact (batch_routes_match_requests Toy.routed {| routes := [Toy.equator] |}
           Toy.start Toy.after_equator _ equator_batch).
Defined.

(** A witness of [batch_of_append]: the request along the equator in a batch
    of its own, twice, and both in one batch. *)
Lemma batch_of_append_equator :
  exists b,
    calculate_batch_routes Toy.routed
      {| routes := [Toy.equator] ++ [Toy.equator] |} Toy.start
    = (Ok b, Toy.after_equator)
    /\ routes_r b = [Toy.equator_route] ++ [Toy.equator_route].
Proof.
  exact (proj1 (batch_of_append Toy.routed [Toy.equator] [Toy.equator]
                  Toy.start)
           _ _ _ _ equator_batch equator_batch_rerun).
Defined.

Lemma equator_acquire :
  get_or_download_graph Toy.routed ((0 + 0) / 2) ((0 + 0.1) / 2) "drive"
    (graph_radius Toy.equator_km) Toy.start
  = (Ok 0%nat, Toy.after_equator).
Proof.
  unfold get_or_download_graph. simpl ttl_contains. cbv iota.
  change (disk_cache Toy.start) with (∅ : gmap string nat).
  rewrite lookup_empty. reflexivity.
Qed.

Lemma coherent_after_equator : coherent Toy.after_equator.
Proof.
  intros k G [[= <- <-] | []]. apply lookup_insert_eq.
Qed.

(** A witness of [haversine_distance_bounds]: a tenth of a degree on the
    equator. *)
Lemma haversine_distance_bounds_equator :
  0 <= Toy.equator_km <= 6371 * PI /\ Toy.equator_km < 20016.
Proof.
  exact (haversine_distance_bounds (origin Toy.equator)
           (destination Toy.equator) Toy.equator_km equator_distance).
Defined.

(** A witness of [fast_tier_bounded]: the empty caches. *)
Lemma fast_tier_bounded_start :
  (forall request,
     (length (graph_cache (snd (calculate_single_route Toy.routed request
                                  Toy.start))) <= 50)%nat)
  /\ (forall request,
        (length (graph_cache (snd (calculate_batch_routes Toy.routed request
                                     Toy.start))) <= 50)%nat)
  /\ (forall lat lng mode radius,
        (length (graph_cache (snd (preload_graph Toy.routed lat lng mode radius
                                     Toy.start))) <= 50)%nat)
  /\ (forall dead, (length (graph_cache (tick dead Toy.start)) <= 50)%nat)
  /\ (forall version, (cache_size (health_check version Toy.start) <= 50)%nat).
Proof.
  apply (fast_tier_bounded Toy.routed Toy.start). simpl. lia.
Defined.

(** A witness of [tiers_coherent]: the empty caches. *)
Lemma tiers_coherent_start :
  (forall request,
     coherent (snd (calculate_single_route Toy.routed request Toy.start)))
  /\ (forall request,
        coherent (snd (calculate_batch_routes Toy.routed request Toy.start)))
  /\ (forall lat lng mode radius,
        coherent (snd (preload_graph Toy.routed lat lng mode radius Toy.start)))
  /\ (forall dead, coherent (tick dead Toy.start)).
Proof.
  exact (tiers_coherent Toy.routed Toy.start coherent_start).
Defined.

(** A witness of [durable_tier_grows]: the graph of the equator request. *)
Lemma durable_tier_grows_equator :
  (forall request,
     disk_cache (snd (calculate_single_route Toy.routed request
                        Toy.after_equator)) !! Toy.equator_key = Some 0%nat)
  /\ (forall request,
        disk_cache (snd (calculate_batch_routes Toy.routed request
                           Toy.after_equator)) !! Toy.equator_key = Some 0%nat)
  /\ (forall lat lng mode radius,
        disk_cache (snd (preload_graph Toy.routed lat lng mode radius
                           Toy.after_equator)) !! Toy.equator_key
        = Some 0%nat).
Proof.
  apply (durable_tier_grows Toy.routed Toy.after_equator Toy.equator_key 0%nat).
  apply lookup_insert_eq.
Defined.

(** A witness of [served_from_cache]: the equator graph, asked for again. *)
Lemma served_from_cache_equator :
  exists s',
    get_or_download_graph Toy.routed ((0 + 0) / 2) ((0 + 0.1) / 2) "drive"
      (graph_radius Toy.equator_km) Toy.after_equator = (Ok 0%nat, s')
    /\ downloads s' = downloads Toy.after_equator
    /\ disk_cache s' = disk_cache Toy.after_equator
    /\ ttl_contains Toy.equator_key (graph_cache s') = true.
Proof.
  apply (served_from_cache Toy.routed ((0 + 0) / 2) ((0 + 0.1) / 2) "drive"
           (graph_radius Toy.equator_km) Toy.after_equator 0%nat).
  - exact coherent_after_equator.
  - apply lookup_insert_eq.
Defined.

(** A witness of [same_request_same_answer]: the equator request, asked
    again after everything in the fast tier expired. *)
Lemma same_request_same_answer_equator :
  snd (calculate_single_route Toy.routed Toy.equator Toy.start)
  = Toy.after_equator
  /\ fst (calculate_single_route Toy.routed Toy.equator
            (tick (fun _ => true) Toy.after_equator))
     = fst (calculate_single_route Toy.routed Toy.equator Toy.start)
  /\ downloads (snd (calculate_single_route Toy.routed Toy.equator
                       (tick (fun _ => true) Toy.after_equator)))
     = downloads Toy.after_equator.
Proof.
  exact (same_request_same_answer Toy.routed Toy.equator Toy.start
           Toy.equator_km 0%nat Toy.after_equator (fun _ => true)
           coherent_start equator_distance equator_acquire).
Defined.

Lemma equator_preload :
  preload_graph Toy.routed ((0 + 0) / 2) ((0 + 0.1) / 2) "drive"
    (graph_radius Toy.equator_km) Toy.start
  = (Ok {| status := "success"; nodes := 2; edges := 1;
           preload_mode := "drive";
           radius := graph_radius Toy.equator_km |}, Toy.after_equator).
Proof. unfold preload_graph. rewrite equator_acquire. reflexivity. Qed.

(** A witness of [preload_then_route]: the region of the equator request,
    preloaded. *)
Lemma preload_then_route_equator :
  downloads (snd (calculate_single_route Toy.routed Toy.equator
                    (tick (fun _ => false) Toy.after_equator)))
  = downloads Toy.after_equator.
Proof.
  exact (preload_then_route Toy.routed _ _ _ _ Toy.start Toy.after_equator _
           Toy.equator Toy.equator_km (fun _ => false)
           coherent_start equator_preload equator_distance eq_refl).
Defined.

(** A witness of [preload_outcome]: the empty caches. *)
Lemma preload_outcome_start :
  let key := get_graph_key 0 0 "drive" 10000 in
  (exists G s',
     preload_graph Toy.routed 0 0 "drive" 10000 Toy.start
     = (Ok {| status := "success"; nodes := number_of_nodes Toy.routed G;
              edges := number_of_edges Toy.routed G; preload_mode := "drive";
              radius := 10000 |}, s')
     /\ disk_cache s' !! key = Some G
     /\ ttl_contains key (graph_cache s') = true)
  \/ (exists e s',
        preload_graph Toy.routed 0 0 "drive" 10000 Toy.start
        = (Raise (Exn HTTPException (exn_str e)), s')
        /\ get_or_download_graph Toy.routed 0 0 "drive" 10000 Toy.start
           = (Raise e, s')
        /\ graph_cache s' = graph_cache Toy.start
        /\ disk_cache s' = disk_cache Toy.start).
Proof.
  exact (preload_outcome Toy.routed 0 0 "drive" 10000 Toy.start coherent_start).
Defined.

(** A witness of [provider_failure_falls_back]: the equator request without
    network. *)
Lemma provider_failure_falls_back_equator :
  exists s',
    calculate_single_route Toy.unplugged Toy.equator Toy.start
    = (Ok (fallback_estimate Toy.equator_km "drive"
             "Used fallback: Overpass API unreachable"), s')
    /\ graph_cache s' = graph_cache Toy.start
    /\ disk_cache s' = disk_cache Toy.start.
Proof.
  apply (provider_failure_falls_back Toy.unplugged Toy.equator Toy.start
           Toy.equator_km (Exn OtherException "Overpass API unreachable")).
  - exact equator_distance.
  - reflexivity.
  - apply lookup_empty.
  - reflexivity.
Defined.

(** A witness of [calculate_route_outcome]: a route in the small world. *)
Lemma calculate_route_outcome_routed :
  let r := calculate_route Toy.routed 0%nat (Toy.point 0 0) (Toy.point 0 0.1)
             "drive" in
  success r = true
  /\ error r = None
  /\ mode_r r = "drive"
  /\ path_coordinates r = Some [[INR 1; INR 1]; [INR 2; INR 2]].
Proof.
  intros r.
  destruct (calculate_route_outcome Toy.routed 0%nat (Toy.point 0 0)
              (Toy.point 0 0.1) "drive") as (Hmode & _ & Hok).
  split; [reflexivity |]. split; [apply Hok; reflexivity |].
  split; [exact Hmode | reflexivity].
Defined.

(** A witness of [graph_radius_steps]. *)
Lemma graph_radius_steps_values :
  (graph_radius 1 <= graph_radius 2)%Z
  /\ graph_radius 1 = 5000%Z
  /\ graph_radius 40 = 50000%Z.
Proof.
  destruct graph_radius_steps as (Hmono & Hlow & Hhigh).
  split; [apply Hmono; lra |]. split; [apply Hlow; lra | apply Hhigh; lra].
Defined.

(** A witness of [fallback_estimate_by_mode]: 10 km. *)
Lemma fallback_estimate_by_mode_10 :
  duration_minutes (fallback_estimate 10 "drive" "Used fallback calculation")
  <= duration_minutes (fallback_estimate 10 "bike" "Used fallback calculation")
  /\ duration_minutes (fallback_estimate 10 "bike" "Used fallback calculation")
     <= duration_minutes
          (fallback_estimate 10 "walk" "Used fallback calculation").
Proof.
  apply (fallback_estimate_by_mode 10 "Used fallback calculation"). lra.
Defined.

(** A witness of [mode_tables]: the mode "walk". *)
Lemma mode_tables_walk :
  get_network_type "walk" = "walk" /\ 5 <= get_speed_kmh "walk" <= 40.
Proof.
  destruct (mode_tables "walk") as (Hin & Hlit & _ & _ & Hspeed).
  split; [apply Hlit | exact Hspeed].
  unfold mode_literals. rewrite !elem_of_cons. auto.
Defined.

(** A witness of [validate_RouteRequest_spec]: a body with mode "bike". *)
Lemma validate_RouteRequest_spec_bike :
  let r := {| origin := Toy.point 0 0; destination := Toy.point 0 0.1;
              mode := "bike" |} in
  origin r = Toy.point 0 0 /\ destination r = Toy.point 0 0.1
  /\ mode r = "bike"
  /\ Coordinates_in_range (origin r)
  /\ Coordinates_in_range (destination r)
  /\ mode r ∈ mode_literals
  /\ get_network_type (mode r) = mode r.
Proof.
  intros r.
  destruct (validate_RouteRequest_spec
              {| body_origin := Toy.point 0 0;
                 body_destination := Toy.point 0 0.1;
                 body_mode := Some "bike" |}) as [Hok _].
  apply (Hok r). unfold validate_RouteRequest. simpl.
  rewrite !check_Coordinates_true by (apply point_in_range; lra).
  reflexivity.
Defined.

